(** * DevSync IDE: sharing, access control and editor sessions

    A shallow embedding of the collaboration core of the DevSync IDE
    (React + Firestore): the editor page ([src/pages/Editor.tsx]), the share
    dialog ([src/components/FileGrid.tsx], second half), the three listing
    pages ([FileSystem.tsx], [SharedFiles.tsx], [StarredFiles.tsx]) and the
    document store they talk to; further the presence tracking of the code
    editor, the search and the notification list of the application frame
    ([src/components/CodeEditor.tsx]) and the theme context.

    Conventions of the embedding.
    - A Firestore collection is a finite map from document ids to document
      data; a JavaScript object used as a dictionary ([sharedWith]) is a
      finite map on strings.  A finite map holds the own properties; where
      the code reads [obj[key]] for truthiness, the members inherited from
      [Object.prototype] ([JS.inherited], such as [constructor]) are taken
      into account.  The two table lookups of the listing pages return such
      a member, not a string, at an inherited key: [getFileLanguage] and
      [getInitialContent] describe the code at the other keys
      ([Listing.inheritedKey] tells which names are concerned).
    - Strings are sequences of ASCII characters; [toLowerCase] and [trim]
      act on the ASCII range.
    - [undefined]/[null]/absent fields are [None].
    - Timestamps are natural numbers; every handler that reads the clock
      ([Timestamp.now()], [serverTimestamp()]) takes the time as [now].
    - An [async] handler is modelled as one atomic transition on the
      component state and the database; [addDoc] takes the fresh document id
      as an argument. *)

From Stdlib Require Import Ascii String.
From stdpp Require Import gmap strings list fin_maps relations sorting.

Local Open Scope string_scope.

(** ** JavaScript string helpers *)

Module JS.

Definition nl : string := String "010"%char EmptyString.

(** A string is falsy exactly when it is empty. *)
Definition truthy (s : string) : bool :=
  match s with
  | EmptyString => false
  | String _ _ => true
  end.

(** [s || d] on strings. *)
Definition orElse (s d : string) : string := if truthy s then s else d.

(** [o || d] where [o] may be [undefined]. *)
Definition orDefault (o : option string) (d : string) : string :=
  match o with
  | Some s => orElse s d
  | None => d
  end.

Definition lowerChar (c : ascii) : ascii :=
  let n := nat_of_ascii c in
  if (65 <=? n)%nat && (n <=? 90)%nat then ascii_of_nat (n + 32) else c.

Fixpoint toLowerCase (s : string) : string :=
  match s with
  | EmptyString => EmptyString
  | String c s' => String (lowerChar c) (toLowerCase s')
  end.

(** [s.split(sep)] for a one-character separator: never the empty list. *)
Fixpoint split (sep : ascii) (s : string) : list string :=
  match s with
  | EmptyString => [EmptyString]
  | String c s' =>
      if Ascii.eqb c sep then EmptyString :: split sep s'
      else match split sep s' with
           | seg :: rest => String c seg :: rest
           | [] => [String c EmptyString]
           end
  end.

(** [xs.pop()] as a value: the last element, [undefined] on the empty array. *)
Definition pop (xs : list string) : option string := last xs.

Definition isSpace (c : ascii) : bool :=
  let n := nat_of_ascii c in
  ((9 <=? n)%nat && (n <=? 13)%nat) || (n =? 32)%nat.

(** [!s.trim()]: the string is empty once the white space is removed. *)
Fixpoint blank (s : string) : bool :=
  match s with
  | EmptyString => true
  | String c s' => isSpace c && blank s'
  end.

(** The property names every object inherits from [Object.prototype].
    Under [__proto__] the value is [Object.prototype] itself, under the
    others it is a function; all of them are truthy and none is a string. *)
Definition inheritedFunctions : list string :=
  [ "constructor"; "__defineGetter__"; "__defineSetter__"; "hasOwnProperty";
    "__lookupGetter__"; "__lookupSetter__"; "isPrototypeOf";
    "propertyIsEnumerable"; "toString"; "valueOf"; "toLocaleString" ].

Definition objectPrototype : list string := inheritedFunctions ++ ["__proto__"].

(** [k] names an inherited member: [obj[k]] is truthy on every object. *)
Definition inherited (k : string) : bool := existsb (String.eqb k) objectPrototype.

(** [k] names an inherited function. *)
Definition inheritedFunction (k : string) : bool :=
  existsb (String.eqb k) inheritedFunctions.

(** Lookup among the own properties of an object literal written as a list
    of key/value pairs. *)
Fixpoint lookupLit (k : string) (tbl : list (string * string)) : option string :=
  match tbl with
  | [] => None
  | (k', v) :: tbl' => if String.eqb k k' then Some v else lookupLit k tbl'
  end.

End JS.

(** ** Documents of the [files], [users] and [notifications] collections *)

Inductive Permission := editor | viewer.

Inductive FileType := type_file | type_folder.

(** A value of the [sharedWith] dictionary. *)
Record ShareData := mkShareData {
  sd_email : string;
  sd_permission : Permission;
  sd_userId : option string
}.

(** The data of a document of the [files] collection. *)
Record FileData := mkFileData {
  name : string;
  type : FileType;
  language : option string;
  content : option string;
  lastModified : nat;
  parentId : option string;
  ownerId : string;
  starred : bool;
  sharedWith : option (gmap string ShareData);
  deleted : bool
}.

(** The [File] interface of the pages: document data together with its id. *)
Record File := mkFile {
  id : string;
  data : FileData
}.

Record Notification := mkNotification {
  n_userId : string;
  n_fileId : string;
  n_fileName : string;
  n_sharedBy : option string;
  n_permission : Permission;
  n_timestamp : nat;
  n_read : bool
}.

(** The signed-in user as the pages see it ([currentUser.uid],
    [currentUser.email], the latter possibly [null]). *)
Record User := mkUser {
  uid : string;
  email : option string
}.

#[global] Instance Permission_eq_dec : EqDecision Permission.
Proof. solve_decision. Defined.

#[global] Instance FileType_eq_dec : EqDecision FileType.
Proof. solve_decision. Defined.

(** ** The document store *)

Module Firestore.

Record Db := mkDb {
  files : gmap string FileData;
  (** the [users] collection in query order: document id and [email] field *)
  users : list (string * string);
  notifications : list Notification
}.

Definition withFiles (fs : gmap string FileData) (db : Db) : Db :=
  mkDb fs (users db) (notifications db).

(** [updateDoc(doc(db, 'files', id), patch)]: merge-patch of an existing
    document; rejects ([None]) when the document does not exist. *)
Definition updateDoc (fid : string) (patch : FileData → FileData) (db : Db)
  : option Db :=
  match files db !! fid with
  | Some d => Some (withFiles (<[fid := patch d]> (files db)) db)
  | None => None
  end.

(** [addDoc(collection(db, 'files'), d)] with the id the store assigns. *)
Definition addFile (newId : string) (d : FileData) (db : Db) : Db :=
  withFiles (<[newId := d]> (files db)) db.

(** [deleteDoc(doc(db, 'files', id))]. *)
Definition deleteDoc (fid : string) (db : Db) : Db :=
  withFiles (delete fid (files db)) db.

(** [addDoc(collection(db, 'notifications'), n)]. *)
Definition addNotification (n : Notification) (db : Db) : Db :=
  mkDb (files db) (users db) (notifications db ++ [n]).

(** [getDocs(query(users, where('email', '==', e)))]: the matching
    documents' ids, in query order. *)
Definition usersByEmail (e : string) (db : Db) : list string :=
  (filter (λ u, u.2 = e) (users db)).*1.

(** A snapshot of the whole [files] collection. *)
Definition allFiles (db : Db) : list File :=
  (λ p, mkFile p.1 p.2) <$> map_to_list (files db).

End Firestore.

(** ** Field patches written by the handlers *)

Definition patchContent (c : string) (t : nat) (d : FileData) : FileData :=
  mkFileData (name d) (type d) (language d) (Some c) t (parentId d)
             (ownerId d) (starred d) (sharedWith d) (deleted d).

Definition patchDeleted (d : FileData) : FileData :=
  mkFileData (name d) (type d) (language d) (content d) (lastModified d)
             (parentId d) (ownerId d) (starred d) (sharedWith d) true.

Definition patchSharedWith (m : gmap string ShareData) (t : nat) (d : FileData)
  : FileData :=
  mkFileData (name d) (type d) (language d) (content d) t (parentId d)
             (ownerId d) (starred d) (Some m) (deleted d).

Definition patchName (n : string) (d : FileData) : FileData :=
  mkFileData n (type d) (language d) (content d) (lastModified d) (parentId d)
             (ownerId d) (starred d) (sharedWith d) (deleted d).

Definition patchStarred (b : bool) (t : nat) (d : FileData) : FileData :=
  mkFileData (name d) (type d) (language d) (content d) t (parentId d)
             (ownerId d) b (sharedWith d) (deleted d).

(** ** The editor page ([src/pages/Editor.tsx]) *)

Module Editor.

Import Firestore.

(** The React state of the page that the handlers below read or write.
    [navigatedTo] records the last [navigate(...)] call. *)
Record State := mkState {
  file : option File;
  error : string;
  isSaving : bool;
  isReadOnly : bool;
  navigatedTo : option string
}.

Definition initial : State := mkState None EmptyString false false None.

Definition setError (msg : string) (s : State) : State :=
  mkState (file s) msg (isSaving s) (isReadOnly s) (navigatedTo s).

Definition setIsSaving (b : bool) (s : State) : State :=
  mkState (file s) (error s) b (isReadOnly s) (navigatedTo s).

Definition setFile (f : File) (s : State) : State :=
  mkState (Some f) (error s) (isSaving s) (isReadOnly s) (navigatedTo s).

Definition setIsReadOnly (b : bool) (s : State) : State :=
  mkState (file s) (error s) (isSaving s) b (navigatedTo s).

Definition navigate (path : string) (s : State) : State :=
  mkState (file s) (error s) (isSaving s) (isReadOnly s) (Some path).

(** [fileData.ownerId === currentUser.uid] *)
Definition isOwner (fileData : FileData) (currentUser : User) : bool :=
  bool_decide (ownerId fileData = uid currentUser).

(** [fileData.sharedWith?.[currentUser.email || '']?.permission === 'editor'] *)
Definition isEditor (fileData : FileData) (currentUser : User) : bool :=
  match sharedWith fileData with
  | None => false
  | Some m =>
      match m !! JS.orDefault (email currentUser) EmptyString with
      | Some entry => bool_decide (sd_permission entry = editor)
      | None => false
      end
  end.

(** The value handed to [setIsReadOnly]: [!isOwner && !isEditor]. *)
Definition readOnlyFor (fileData : FileData) (currentUser : User) : bool :=
  negb (isOwner fileData currentUser) && negb (isEditor fileData currentUser).

(** The role the session acts in, read off the two tests in the order of
    [!isOwner && !isEditor]: the owner test comes first, every user who
    passes neither test gets a read-only session. *)
Inductive PermissionLevel := Owner | Editor | Viewer.

Definition level (fileData : FileData) (currentUser : User) : PermissionLevel :=
  if isOwner fileData currentUser then Owner
  else if isEditor fileData currentUser then Editor
  else Viewer.

(** The [onSnapshot] callback of the file listener. [doc] is [None] when
    [doc.exists()] is false. *)
Definition onSnapshot (currentUser : User) (fileId : string)
    (doc : option FileData) (s : State) : State :=
  match doc with
  | None => setError "File not found" s
  | Some fileData =>
      match type fileData with
      | type_folder => navigate "/editor" s
      | type_file =>
          setIsReadOnly (readOnlyFor fileData currentUser)
            (setFile (mkFile fileId fileData) s)
      end
  end.

(** What a call of [handleSave] did: returned at the guard, committed the
    write, or had the write rejected by the store. *)
Inductive SaveOutcome := SaveSkipped | SaveWritten | SaveFailed.

(** [handleSave(content)].  The guard is
    [!file || !currentUser || !content || isSaving]. *)
Definition handleSave (currentUser : option User) (value : option string)
    (now : nat) (s : State) (db : Db) : SaveOutcome * State * Db :=
  match file s, currentUser, value with
  | Some f, Some _, Some c =>
      if negb (JS.truthy c) || isSaving s then (SaveSkipped, s, db)
      else
        match updateDoc (id f) (patchContent c now) db with
        | Some db' => (SaveWritten, setIsSaving false s, db')
        | None =>
            (SaveFailed, setIsSaving false (setError "Failed to save file" s), db)
        end
  | _, _, _ => (SaveSkipped, s, db)
  end.

(** The Save button of the toolbar: [onClick={() => handleSave(file.content)}],
    [disabled={isSaving}].  The button is rendered once [file] is set. *)
Definition onSaveClick (currentUser : option User) (now : nat)
    (s : State) (db : Db) : SaveOutcome * State * Db :=
  match file s with
  | Some f =>
      if isSaving s then (SaveSkipped, s, db)
      else handleSave currentUser (content (data f)) now s db
  | None => (SaveSkipped, s, db)
  end.

Definition withContent (v : option string) (f : File) : File :=
  let d := data f in
  mkFile (id f)
    (mkFileData (name d) (type d) (language d) v (lastModified d) (parentId d)
                (ownerId d) (starred d) (sharedWith d) (deleted d)).

(** The [onChange] wiring of the code editor:
    [setFile({ ...file, content: value }); handleSave(value)].  [handleSave]
    is the closure of the current render, so it sees the state before
    [setFile]; the two updates are merged here. *)
Definition onChange (currentUser : option User) (value : option string)
    (now : nat) (s : State) (db : Db) : SaveOutcome * State * Db :=
  match file s with
  | Some f =>
      let '(o, s', db') := handleSave currentUser value now s db in
      (o, setFile (withContent value f) s', db')
  | None => (SaveSkipped, s, db)
  end.

(** The code editor is mounted with [readOnly={isReadOnly}]. *)
Definition editorReadOnly (s : State) : bool := isReadOnly s.


(** [handleDelete]: a soft delete followed by [navigate('/files')]; a
    rejected write is only logged. *)
Definition handleDelete (currentUser : option User) (s : State) (db : Db)
  : State * Db :=
  match file s, currentUser with
  | Some f, Some _ =>
      match updateDoc (id f) patchDeleted db with
      | Some db' => (navigate "/files" s, db')
      | None => (s, db)
      end
  | _, _ => (s, db)
  end.

End Editor.

(** ** The share dialog ([src/components/FileGrid.tsx], [ShareDialog]) *)

Module ShareDialog.

Import Firestore.

Record State := mkState {
  d_email : string;
  d_permission : Permission;
  d_error : string;
  d_isLoading : bool;
  d_open : bool
}.

Definition errSelf : string := "You cannot share with yourself".
Definition errAlready : string := "User already has access".
Definition errShare : string := "Failed to share file".
Definition errRemove : string := "Failed to remove access".
Definition errUpdate : string := "Failed to update permission".

(** The state after [setIsLoading(true); setError(msg); ... finally
    setIsLoading(false)]. *)
Definition failWith (msg : string) (s : State) : State :=
  mkState (d_email s) (d_permission s) msg false (d_open s).

(** The state after a completed share: the form is reset and [onClose()]
    is called. *)
Definition closed : State := mkState EmptyString viewer EmptyString false false.

Inductive ShareOutcome :=
  | ShareIgnored      (* returned at the first guard *)
  | ShareSelf         (* 'You cannot share with yourself' *)
  | ShareAlready      (* 'User already has access' *)
  | ShareDone
  | ShareFailed.      (* the store rejected the update *)

(** The key under which the grant is recorded: the id of the first [users]
    document with that email, or the email itself when there is none. *)
Definition resolveKey (mail : string) (db : Db) : string :=
  match usersByEmail mail db with
  | [] => mail
  | docId :: _ => docId
  end.

(** [file.sharedWith || {}] *)
Definition sharedWithOrEmpty (d : FileData) : gmap string ShareData :=
  default ∅ (sharedWith d).

(** [file.sharedWith?.[userId]] is truthy: the key has a grant, or it names
    a member every object inherits. *)
Definition alreadyShared (f : File) (userId : string) : bool :=
  match sharedWith (data f) with
  | Some m => bool_decide (is_Some (m !! userId)) || JS.inherited userId
  | None => false
  end.

Definition notificationFor (currentUser : User) (f : File) (userId : string)
    (perm : Permission) (now : nat) : Notification :=
  mkNotification userId (id f) (name (data f)) (email currentUser) perm now false.

(** [handleShare].  [f] is the [file] prop of the dialog; [d_email s] and
    [d_permission s] are the form fields. *)
Definition handleShare (currentUser : option User) (f : File) (now : nat)
    (s : State) (db : Db) : ShareOutcome * State * Db :=
  match currentUser with
  | None => (ShareIgnored, s, db)
  | Some cu =>
      if JS.blank (d_email s) then (ShareIgnored, s, db)
      else if bool_decide (Some (d_email s) = email cu)
      then (ShareSelf, failWith errSelf s, db)
      else
        let userId := resolveKey (d_email s) db in
        if alreadyShared f userId
        then (ShareAlready, failWith errAlready s, db)
        else
          let entry := mkShareData (d_email s) (d_permission s) (Some userId) in
          let shared := <[userId := entry]> (sharedWithOrEmpty (data f)) in
          match updateDoc (id f) (patchSharedWith shared now) db with
          | None => (ShareFailed, failWith errShare s, db)
          | Some db1 =>
              (ShareDone, closed,
               addNotification
                 (notificationFor cu f userId (d_permission s) now) db1)
          end
  end.

(** [handleRemoveShare(userId)] *)
Definition handleRemoveShare (currentUser : option User) (f : File)
    (userId : string) (now : nat) (s : State) (db : Db) : State * Db :=
  match currentUser with
  | None => (s, db)
  | Some _ =>
      let shared := delete userId (sharedWithOrEmpty (data f)) in
      match updateDoc (id f) (patchSharedWith shared now) db with
      | Some db' => (mkState (d_email s) (d_permission s) (d_error s) false (d_open s), db')
      | None => (failWith errRemove s, db)
      end
  end.

Definition withPermission (p : Permission) (e : ShareData) : ShareData :=
  mkShareData (sd_email e) p (sd_userId e).

(** [handleUpdatePermission(userId, newPermission)] *)
Definition handleUpdatePermission (currentUser : option User) (f : File)
    (userId : string) (newPermission : Permission) (now : nat)
    (s : State) (db : Db) : State * Db :=
  match currentUser with
  | None => (s, db)
  | Some _ =>
      let done := mkState (d_email s) (d_permission s) (d_error s) false (d_open s) in
      match sharedWithOrEmpty (data f) !! userId with
      | Some e =>
          let shared :=
            <[userId := withPermission newPermission e]> (sharedWithOrEmpty (data f)) in
          match updateDoc (id f) (patchSharedWith shared now) db with
          | Some db' => (done, db')
          | None => (failWith errUpdate s, db)
          end
      | None => (done, db)
      end
  end.

End ShareDialog.

(** ** Helpers shared by the listing pages *)

Module Listing.

(** The language and starter-content tables, as written in both
    [FileSystem.tsx] and [SharedFiles.tsx]. *)
Definition languageMap : list (string * string) :=
  [ ("js", "javascript"); ("ts", "typescript"); ("py", "python");
    ("java", "java"); ("c", "c"); ("cpp", "cpp"); ("cs", "csharp");
    ("html", "html"); ("css", "css"); ("json", "json"); ("md", "markdown");
    ("txt", "plaintext") ].

Definition startCoding : string := "// Start coding here" ++ JS.nl.

Definition htmlSkeleton : string :=
  "<!DOCTYPE html>" ++ JS.nl ++ "<html>" ++ JS.nl ++ "<head>" ++ JS.nl ++
  "  <title>Document</title>" ++ JS.nl ++ "</head>" ++ JS.nl ++ "<body>" ++
  JS.nl ++ "  " ++ JS.nl ++ "</body>" ++ JS.nl ++ "</html>".

Definition contentMap : list (string * string) :=
  [ ("py", "# Start coding here" ++ JS.nl);
    ("java", startCoding); ("c", startCoding); ("cpp", startCoding);
    ("cs", startCoding);
    ("html", htmlSkeleton);
    ("css", "/* Start styling here */" ++ JS.nl);
    ("js", startCoding); ("ts", startCoding);
    ("json", "{" ++ JS.nl ++ "  " ++ JS.nl ++ "}");
    ("md", "# Start writing here" ++ JS.nl);
    ("txt", EmptyString) ].

(** [fileName.split('.').pop()?.toLowerCase()] *)
Definition extension (fileName : string) : option string :=
  JS.toLowerCase <$> JS.pop (JS.split "." fileName).

(** [table[extension || ''] || fallback] *)
Definition lookupOr (tbl : list (string * string)) (ext : option string)
    (fallback : string) : string :=
  JS.orDefault (JS.lookupLit (JS.orDefault ext EmptyString) tbl) fallback.

Definition getFileLanguage (fileName : string) : string :=
  lookupOr languageMap (extension fileName) "plaintext".

Definition getInitialContent (fileName : string) : string :=
  lookupOr contentMap (extension fileName) startCoding.

(** The key both helpers look up: [extension || '']. *)
Definition tableKey (fileName : string) : string :=
  JS.orDefault (extension fileName) EmptyString.

(** The key names a member of [Object.prototype]: the code's lookups then
    return that member (a function, or [Object.prototype] itself) instead of
    a string, and the two definitions above do not describe it. *)
Definition inheritedKey (fileName : string) : bool :=
  JS.inherited (tableKey fileName).

(** [currentPath.length > 0 ? currentPath[currentPath.length - 1] : null] *)
Definition currentFolderId (currentPath : list string) : option string :=
  last currentPath.

(** [!file.parentId]: absent, [null] or the empty string. *)
Definition noParent (d : FileData) : bool :=
  match parentId d with
  | None => true
  | Some p => negb (JS.truthy p)
  end.

(** [a.sort((a, b) => b.lastModified - a.lastModified)]: most recent first,
    ties in their original order. *)
Fixpoint insertByRecent (f : File) (l : list File) : list File :=
  match l with
  | [] => [f]
  | g :: l' =>
      if (lastModified (data g) <=? lastModified (data f))%nat
      then f :: g :: l'
      else g :: insertByRecent f l'
  end.

Definition sortByRecent (l : list File) : list File := foldr insertByRecent [] l.

End Listing.

(** ** My files ([src/pages/FileSystem.tsx]) *)

Module FileSystem.

Import Firestore Listing.

Record State := mkState {
  files : list File;
  currentPath : list string;
  isCreateDialogOpen : bool;
  newFileName : string;
  newFileType : FileType;
  error : string
}.

(** The object built for each document of the snapshot: the listed fields
    only, with [starred || false] and [sharedWith || {}]. *)
Definition listed (f : File) : File :=
  let d := data f in
  mkFile (id f)
    (mkFileData (name d) (type d) (language d) (content d) (lastModified d)
                (parentId d) (ownerId d) (starred d)
                (Some (default ∅ (sharedWith d))) false).

(** [query(filesRef, where('ownerId', '==', currentUser.uid))] *)
Definition ownedQuery (currentUser : User) (db : Db) : list File :=
  filter (λ f, ownerId (data f) = uid currentUser) (allFiles db).

Definition atPath (currentPath : list string) (f : File) : bool :=
  match currentPath with
  | [] => noParent (data f)
  | _ => bool_decide (parentId (data f) = currentFolderId currentPath)
  end.

(** The value handed to [setFiles] by the snapshot listener. *)
Definition view (currentUser : User) (currentPath : list string) (db : Db)
  : list File :=
  List.filter (atPath currentPath) (sortByRecent (listed <$> ownedQuery currentUser db)).

(** [handleCreateFile]: the document written by [addDoc] has neither a
    [language] nor a [sharedWith] field, and [content] is [''] for a file
    and [null] for a folder. *)
Definition newDocument (currentUser : User) (s : State) (now : nat) : FileData :=
  mkFileData (newFileName s) (newFileType s) None
    (match newFileType s with
     | type_file => Some EmptyString
     | type_folder => None
     end)
    now (currentFolderId (currentPath s)) (uid currentUser) false None false.

Definition handleCreateFile (currentUser : option User) (newId : string)
    (now : nat) (s : State) (db : Db) : State * Db :=
  match currentUser with
  | None => (s, db)
  | Some cu =>
      if JS.blank (newFileName s) then (s, db)
      else
        (mkState (files s) (currentPath s) false EmptyString (newFileType s) (error s),
         addFile newId (newDocument cu s now) db)
  end.

(** [handleDeleteFile]: a hard delete. *)
Definition handleDeleteFile (currentUser : option User) (f : File) (db : Db) : Db :=
  match currentUser with
  | None => db
  | Some _ => deleteDoc (id f) db
  end.

(** [handleRenameFile], with [fileToRename] and [newName] as arguments;
    a rejected write only sets the error message. *)
Definition handleRenameFile (currentUser : option User) (fileToRename : option File)
    (newName : string) (db : Db) : Db :=
  match currentUser, fileToRename with
  | Some _, Some f =>
      if JS.blank newName then db
      else default db (updateDoc (id f) (patchName newName) db)
  | _, _ => db
  end.

(** [handleStar]: toggles the flag of the listed file. *)
Definition handleStar (currentUser : option User) (f : File) (now : nat) (db : Db) : Db :=
  match currentUser with
  | None => db
  | Some _ =>
      default db (updateDoc (id f) (patchStarred (negb (starred (data f))) now) db)
  end.

End FileSystem.

(** ** Starred files ([StarredFiles.tsx]) *)

Module StarredFiles.

Import Firestore.

(** The listed fields; [deleted] is not among them. *)
Definition listed (f : File) : File :=
  let d := data f in
  mkFile (id f)
    (mkFileData (name d) (type d) (language d) (content d) (lastModified d)
                (parentId d) (ownerId d) (starred d) (sharedWith d) false).

(** [where('ownerId', '==', uid), where('starred', '==', true)] *)
Definition view (currentUser : User) (db : Db) : list File :=
  listed <$>
    filter (λ f, ownerId (data f) = uid currentUser ∧ starred (data f) = true)
           (allFiles db).

End StarredFiles.

(** ** Shared with me ([src/pages/SharedFiles.tsx]) *)

Module SharedFiles.

Import Firestore Listing.

Record State := mkState {
  files : list File;
  currentPath : list string;
  isCreateDialogOpen : bool;
  newFileName : string;
  newFileType : FileType;
  error : string
}.

(** [shareData.email === currentUser.email || key === currentUser.uid] *)
Definition matches (currentUser : User) (entry : string * ShareData) : bool :=
  bool_decide (Some (sd_email entry.2) = email currentUser)
  || bool_decide (entry.1 = uid currentUser).

(** [Object.entries(data.sharedWith || {}).some(...)] *)
Definition isShared (currentUser : User) (d : FileData) : bool :=
  existsb (matches currentUser) (map_to_list (default ∅ (sharedWith d))).

(** The listed fields: no [starred], no [deleted]. *)
Definition listed (f : File) : File :=
  let d := data f in
  mkFile (id f)
    (mkFileData (name d) (type d) (language d) (content d) (lastModified d)
                (parentId d) (ownerId d) false (sharedWith d) false).

(** The value handed to [setFiles] by the snapshot listener. *)
Definition view (currentUser : User) (db : Db) : list File :=
  listed <$> List.filter (λ f, isShared currentUser (data f)) (allFiles db).

(** [files.find(f => f.id === currentFolderId)] *)
Definition currentFolder (s : State) : option File :=
  match currentFolderId (currentPath s) with
  | Some fid => List.find (λ f, bool_decide (id f = fid)) (files s)
  | None => None
  end.

(** [currentFolder?.sharedWith || {}] *)
Definition inheritedSharedWith (s : State) : gmap string ShareData :=
  match currentFolder s with
  | Some folder => default ∅ (sharedWith (data folder))
  | None => ∅
  end.

(** The [fileData] object handed to [addDoc], after the [delete] of the
    two undefined fields of a folder. *)
Definition newDocument (currentUser : User) (s : State) (now : nat) : FileData :=
  mkFileData (newFileName s) (newFileType s)
    (match newFileType s with
     | type_file => Some (getFileLanguage (newFileName s))
     | type_folder => None
     end)
    (match newFileType s with
     | type_file => Some (getInitialContent (newFileName s))
     | type_folder => None
     end)
    now (currentFolderId (currentPath s)) (uid currentUser) false
    (Some (inheritedSharedWith s)) false.

(** For a file whose name has an inherited table key, [language] and
    [content] are not strings, and [newDocument] does not describe them. *)
Definition nonStringFields (s : State) : bool :=
  match newFileType s with
  | type_file => inheritedKey (newFileName s)
  | type_folder => false
  end.

(** For a file whose table key names an inherited function, [language] and
    [content] are functions. *)
Definition functionFields (s : State) : bool :=
  match newFileType s with
  | type_file => JS.inheritedFunction (tableKey (newFileName s))
  | type_folder => false
  end.

(** [handleCreateFile].  The store does not take a function as a field
    value: when [language] and [content] are functions, [addDoc] rejects the
    data and the [catch] sets the error message; nothing is stored and the
    dialog stays as it is.  (For the key [__proto__] the two fields are
    [Object.prototype], a plain object without own properties, not a string:
    the document written here differs from the code's in [language] and
    [content].) *)
Definition handleCreateFile (currentUser : option User) (newId : string)
    (now : nat) (s : State) (db : Db) : State * Db :=
  match currentUser with
  | None => (s, db)
  | Some cu =>
      if JS.blank (newFileName s) then (s, db)
      else if functionFields s then
        (mkState (files s) (currentPath s) (isCreateDialogOpen s) (newFileName s)
                 (newFileType s) "Failed to create file", db)
      else
        (mkState (files s) (currentPath s) false EmptyString type_file (error s),
         addFile newId (newDocument cu s now) db)
  end.

(** [handleFileClick]: a folder is entered, a file is opened in the editor.
    The result is the new path and the route navigated to, if any. *)
Definition handleFileClick (f : File) (s : State) : State * option string :=
  match type (data f) with
  | type_folder =>
      (mkState (files s) (currentPath s ++ [id f]) (isCreateDialogOpen s)
               (newFileName s) (newFileType s) (error s), None)
  | type_file => (s, Some ("/editor/" ++ id f))
  end.

(** [handleDeleteFile]: a soft delete. *)
Definition handleDeleteFile (currentUser : option User) (f : File) (db : Db) : Db :=
  match currentUser with
  | None => db
  | Some _ => default db (updateDoc (id f) patchDeleted db)
  end.

End SharedFiles.

(** The document as a soft delete leaves it. *)
Definition softDeleted (f : File) : File := mkFile (id f) (patchDeleted (data f)).

(** ** The system as a whole *)

Module System.

Import Firestore.

Definition initial : Db := mkDb ∅ [] [].

(** An account is created: the authentication layer adds a document to the
    [users] collection. *)
Definition register (docId mail : string) (db : Db) : Db :=
  mkDb (files db) (users db ++ [(docId, mail)]) (notifications db).

(** One user action.  [past] lists the states the system has been in, the
    current one included: a dialog acts on the copy of the document it was
    opened with and a page on the listing of its last snapshot, either of
    which may be stale. *)
Inductive step (past : list Db) : Db → Db → Prop :=
  | step_register docId mail db :
      step past db (register docId mail db)
  | step_create cu newId now s db :
      files db !! newId = None →
      step past db (FileSystem.handleCreateFile (Some cu) newId now s db).2
  | step_create_shared cu newId now s old db :
      files db !! newId = None →
      old ∈ past →
      SharedFiles.files s = SharedFiles.view cu old →
      step past db (SharedFiles.handleCreateFile (Some cu) newId now s db).2
  | step_share cu fid d now s old db :
      old ∈ past →
      files old !! fid = Some d →
      step past db (ShareDialog.handleShare (Some cu) (mkFile fid d) now s db).2
  | step_remove_share cu fid d userId now s old db :
      old ∈ past →
      files old !! fid = Some d →
      step past db
        (ShareDialog.handleRemoveShare (Some cu) (mkFile fid d) userId now s db).2
  | step_update_permission cu fid d userId p now s old db :
      old ∈ past →
      files old !! fid = Some d →
      step past db
        (ShareDialog.handleUpdatePermission (Some cu) (mkFile fid d) userId p now s db).2
  | step_save cu v now s db :
      step past db (Editor.handleSave (Some cu) v now s db).2
  | step_soft_delete cu s db :
      step past db (Editor.handleDelete (Some cu) s db).2
  | step_soft_delete_shared cu f db :
      step past db (SharedFiles.handleDeleteFile (Some cu) f db)
  | step_hard_delete cu f db :
      step past db (FileSystem.handleDeleteFile (Some cu) f db)
  | step_rename cu f newName db :
      step past db (FileSystem.handleRenameFile (Some cu) (Some f) newName db)
  | step_star cu f now db :
      step past db (FileSystem.handleStar (Some cu) f now db).

(** The histories of the system, most recent state first. *)
Inductive run : list Db → Prop :=
  | run_initial : run [initial]
  | run_step db past db' :
      run (db :: past) → step (db :: past) db db' → run (db' :: db :: past).

Definition reachable (db : Db) : Prop := ∃ past, run (db :: past).

(** User [u] holds permission [p] on document [d]: some [sharedWith] entry
    that the shared-with-me filter attributes to [u] records [p]. *)
Definition holds (u : User) (d : FileData) (p : Permission) : Prop :=
  ∃ k e, default ∅ (sharedWith d) !! k = Some e
         ∧ SharedFiles.matches u (k, e) = true
         ∧ sd_permission e = p.

(** No user holds two permission levels on one document. *)
Definition oneLevelPerUser (db : Db) : Prop :=
  ∀ fid d u p q, files db !! fid = Some d → holds u d p → holds u d q → p = q.

End System.

(** ** Concrete scenarios *)

Module Scenario.

Import Firestore.

Definition alice : User := mkUser "uA" (Some "alice@x.com").
Definition bob : User := mkUser "uB" (Some "bob@x.com").

(** [app.py], owned by Alice and not shared. *)
Definition appPy : FileData :=
  mkFileData "app.py" type_file (Some "python")
    (Some ("# Start coding here" ++ JS.nl)) 1 None "uA" false None false.

(** Alice and Bob both have an account. *)
Definition db0 : Db :=
  mkDb {[ "f1" := appPy ]} [("uA", "alice@x.com"); ("uB", "bob@x.com")] [].

Definition formFor (mail : string) (p : Permission) : ShareDialog.State :=
  ShareDialog.mkState mail p EmptyString false true.

(** Alice shares [app.py] with Bob at time 2. *)
Definition shareWithBob (p : Permission) : ShareDialog.ShareOutcome * ShareDialog.State * Db :=
  ShareDialog.handleShare (Some alice) (mkFile "f1" appPy) 2
    (formFor "bob@x.com" p) db0.

Definition dbBobEditor : Db := (shareWithBob editor).2.
Definition dbBobViewer : Db := (shareWithBob viewer).2.

(** The document as stored after either share. *)
Definition sharedAppPy (p : Permission) : FileData :=
  patchSharedWith {[ "uB" := mkShareData "bob@x.com" p (Some "uB") ]} 2 appPy.

(** Bob's editor session on [f1] after the first snapshot. *)
Definition bobSession (p : Permission) : Editor.State :=
  Editor.onSnapshot bob "f1" (Some (sharedAppPy p)) Editor.initial.


(** A second file of Alice's, created empty from the My-files page. *)
Definition emptyPy : FileData :=
  mkFileData "empty.py" type_file None (Some EmptyString) 1 None "uA" false None false.

Definition dbTwo : Db :=
  mkDb {[ "f1" := appPy; "f2" := emptyPy ]}
       [("uA", "alice@x.com"); ("uB", "bob@x.com")] [].

(** Alice's editor session on [f1]. *)
Definition aliceSession : Editor.State :=
  Editor.onSnapshot alice "f1" (Some appPy) Editor.initial.

(** Bob is invited before he has an account, and again after he signed up.
    Alice creates [app.py] from the My-files page (time 1), shares it with
    [bob@x.com] as a viewer (time 2), Bob's account appears, and Alice
    shares it with [bob@x.com] as an editor (time 3). *)
Definition createForm : FileSystem.State :=
  FileSystem.mkState [] [] true "app.py" type_file EmptyString.

Definition created : Db :=
  (FileSystem.handleCreateFile (Some alice) "f1" 1 createForm System.initial).2.

Definition createdDoc : FileData := FileSystem.newDocument alice createForm 1.

Definition invited : Db :=
  (ShareDialog.handleShare (Some alice) (mkFile "f1" createdDoc) 2
     (formFor "bob@x.com" viewer) created).2.

Definition invitedDoc : FileData :=
  patchSharedWith {[ "bob@x.com" := mkShareData "bob@x.com" viewer (Some "bob@x.com") ]}
    2 createdDoc.

Definition signedUp : Db := System.register "uB" "bob@x.com" invited.

Definition invitedAgain : Db :=
  (ShareDialog.handleShare (Some alice) (mkFile "f1" invitedDoc) 3
     (formFor "bob@x.com" editor) signedUp).2.

Definition twiceGranted : FileData :=
  patchSharedWith
    {[ "bob@x.com" := mkShareData "bob@x.com" viewer (Some "bob@x.com");
       "uB" := mkShareData "bob@x.com" editor (Some "uB") ]}
    3 createdDoc.

(** Alice's [app.py], starred, shared with Bob, and soft-deleted. *)
Definition tombstone : FileData :=
  mkFileData "app.py" type_file (Some "python") (Some "x = 1") 3 None "uA" true
    (Some {[ "uB" := mkShareData "bob@x.com" viewer (Some "uB") ]}) true.

Definition dbTombstone : Db :=
  mkDb {[ "f1" := tombstone ]} [("uA", "alice@x.com"); ("uB", "bob@x.com")] [].

(** A folder of Alice's shared with Bob (by id) and with Carol (by email),
    and Bob inside it on the shared-with-me page, about to create
    [util.py]. *)
Definition srcFolder : FileData :=
  mkFileData "src" type_folder None None 1 None "uA" false
    (Some {[ "uB" := mkShareData "bob@x.com" editor (Some "uB");
             "carol@x.com" := mkShareData "carol@x.com" viewer (Some "carol@x.com") ]})
    false.

Definition dbFolder : Db :=
  mkDb {[ "d1" := srcFolder ]} [("uA", "alice@x.com"); ("uB", "bob@x.com")] [].


(** Bob at the top of the shared-with-me page, about to create
    [notes.txt]. *)
Definition bobAtTop : SharedFiles.State :=
  SharedFiles.mkState (SharedFiles.view bob dbFolder) [] true "notes.txt"
    type_file EmptyString.

End Scenario.

(** ** Presence in the code editor ([src/components/CodeEditor.tsx]) *)

Module CodeEditor.

Record Cursor := mkCursor {
  lineNumber : nat;
  column : nat
}.

(** A document of [files/${fileId}/activeUsers]. *)
Record ActiveUser := mkActiveUser {
  au_id : string;
  au_name : string;
  au_email : string;
  au_photoURL : option string;
  au_cursor : option Cursor;
  au_lastSeen : nat
}.

(** The [currentUser] prop of the component. *)
Record Props := mkProps {
  p_id : string;
  p_name : string;
  p_email : string;
  p_photoURL : option string
}.

(** The [activeUsers] subcollection of one file, by document id. *)
Abbreviation Presence := (gmap string ActiveUser).

(** The [userData] object of the mount effect: [photoURL] is copied only
    when it is truthy, there is no [cursor]. *)
Definition userData (currentUser : Props) (now : nat) : ActiveUser :=
  mkActiveUser (p_id currentUser) (p_name currentUser) (p_email currentUser)
    (match p_photoURL currentUser with
     | Some url => if JS.truthy url then Some url else None
     | None => None
     end)
    None now.

Definition touch (now : nat) (u : ActiveUser) : ActiveUser :=
  mkActiveUser (au_id u) (au_name u) (au_email u) (au_photoURL u) (au_cursor u) now.

Definition withCursor (c : Cursor) (now : nat) (u : ActiveUser) : ActiveUser :=
  mkActiveUser (au_id u) (au_name u) (au_email u) (au_photoURL u) (Some c) now.

(** The mount effect: [getDoc(userRef)], then [updateDoc] of [lastSeen] when
    the document exists and [setDoc(userRef, userData)] when it does not. *)
Definition mount (currentUser : Props) (now : nat) (p : Presence) : Presence :=
  match p !! p_id currentUser with
  | Some u => <[p_id currentUser := touch now u]> p
  | None => <[p_id currentUser := userData currentUser now]> p
  end.

(** The cleanup of the effect: [updateDoc(userRef, {lastSeen})], a rejected
    write being ignored. *)
Definition unmount (currentUser : Props) (now : nat) (p : Presence) : Presence :=
  match p !! p_id currentUser with
  | Some u => <[p_id currentUser := touch now u]> p
  | None => p
  end.

(** The [onDidChangeCursorPosition] listener: [updateDoc] of [cursor] and
    [lastSeen], a rejected write being ignored. *)
Definition cursorMoved (currentUser : Props) (position : Cursor) (now : nat)
    (p : Presence) : Presence :=
  match p !! p_id currentUser with
  | Some u => <[p_id currentUser := withCursor position now u]> p
  | None => p
  end.

(** The snapshot listener: every document whose [id] field is not the
    current user's. *)
Definition activeUsers (currentUser : Props) (p : Presence) : list ActiveUser :=
  List.filter (λ u, negb (bool_decide (au_id u = p_id currentUser)))
              ((map_to_list p).*2).

(** [n || 1] *)
Definition orOne (n : nat) : nat := if (n =? 0)%nat then 1 else n.

(** The decoration range of a collaborator's cursor: start line, start
    column, end line, end column. *)
Definition decorationRange (u : ActiveUser) : nat * nat * nat * nat :=
  let line := orOne (default 0 (lineNumber <$> au_cursor u)) in
  let col := orOne (default 0 (column <$> au_cursor u)) in
  (line, col, line, col).

End CodeEditor.

(** ** The application frame ([Layout], second half of
    [src/components/CodeEditor.tsx]) *)

Module Layout.

Import Firestore.

(** [s.includes(p)] *)
Fixpoint includes (s p : string) : bool :=
  String.prefix p s
  || match s with
     | EmptyString => false
     | String _ s' => includes s' p
     end.

(** The object built for each document of the search query. *)
Definition listed (f : File) : File :=
  let d := data f in
  mkFile (id f)
    (mkFileData (name d) (type d) (language d) (content d) (lastModified d)
                (parentId d) (ownerId d) (starred d) (sharedWith d) false).

(** The filter of [handleSearch]:
    [name.toLowerCase().includes(q) ||
     (content && content.toLowerCase().includes(q))] with
    [q = searchText.toLowerCase()]. *)
Definition hit (searchText : string) (f : File) : bool :=
  let q := JS.toLowerCase searchText in
  includes (JS.toLowerCase (name (data f))) q
  || match content (data f) with
     | Some c => JS.truthy c && includes (JS.toLowerCase c) q
     | None => false
     end.

(** [handleSearch(searchText)]: the value handed to [setSearchResults]. *)
Definition handleSearch (currentUser : option User) (searchText : string)
    (db : Db) : list File :=
  match currentUser with
  | None => []
  | Some cu =>
      if JS.blank searchText then []
      else List.filter (hit searchText)
             (listed <$> filter (λ f, ownerId (data f) = uid cu) (allFiles db))
  end.

(** Most recent first; the order of equal timestamps is the store's. *)
Fixpoint insertByTime (n : Notification) (l : list Notification) : list Notification :=
  match l with
  | [] => [n]
  | m :: l' =>
      if (n_timestamp m <=? n_timestamp n)%nat then n :: m :: l'
      else m :: insertByTime n l'
  end.

(** The notifications listener:
    [where('userId', '==', currentUser.uid), orderBy('timestamp', 'desc')]. *)
Definition notificationsView (currentUser : User) (db : Db) : list Notification :=
  foldr insertByTime []
    (filter (λ n, n_userId n = uid currentUser) (notifications db)).

End Layout.

(** ** The theme context ([ThemeContext.tsx]) *)

Module ThemeContext.

(** The initial state: [localStorage.getItem('theme') === 'dark']. *)
Definition initialDark (savedTheme : option string) : bool :=
  bool_decide (savedTheme = Some "dark").

(** The value written by the effect:
    [localStorage.setItem('theme', isDarkMode ? 'dark' : 'light')]. *)
Definition saved (isDarkMode : bool) : string :=
  if isDarkMode then "dark" else "light".

Definition toggleTheme (isDarkMode : bool) : bool := negb isDarkMode.

End ThemeContext.

(** ** Orders of the listings *)


(** [a] was sent no earlier than [b]. *)
Definition sentLater (a b : Notification) : Prop :=
  (n_timestamp b ≤ n_timestamp a)%nat.

(** ** Further scenarios *)

Module Cases.

Import Firestore.

Definition carol : User := mkUser "uC" (Some "carol@x.com").

(** Nobody has an account yet; Alice owns [app.py]. *)
Definition dbNoAccounts : Db := mkDb {[ "f1" := Scenario.appPy ]} [] [].

(** Alice invites [carol@x.com] as an editor at time 2. *)
Definition inviteCarol : ShareDialog.ShareOutcome * ShareDialog.State * Db :=
  ShareDialog.handleShare (Some Scenario.alice) (mkFile "f1" Scenario.appPy) 2
    (Scenario.formFor "carol@x.com" editor) dbNoAccounts.


(** Three files of Alice's at the root, modified at times 1, 5 and 3. *)
Definition older : FileData :=
  mkFileData "a.md" type_file None (Some "# A") 1 None "uA" false None false.
Definition newest : FileData :=
  mkFileData "README.MD" type_file None (Some "hello World") 5 None "uA" false None false.
Definition middle : FileData :=
  mkFileData "notes" type_folder None None 3 None "uA" true None false.

Definition dbThree : Db :=
  mkDb {[ "f1" := older; "f2" := newest; "f3" := middle ]} [] [].




(** Alice's [app.py], starred and shared with Bob, open in her editor. *)
Definition live : FileData :=
  mkFileData "app.py" type_file (Some "python") (Some "x = 1") 3 None "uA" true
    (Some {[ "uB" := mkShareData "bob@x.com" viewer (Some "uB") ]}) false.

Definition dbLive : Db :=
  mkDb {[ "f1" := live ]} [("uA", "alice@x.com"); ("uB", "bob@x.com")] [].

Definition aliceOnLive : Editor.State :=
  Editor.onSnapshot Scenario.alice "f1" (Some live) Editor.initial.

Definition aliceProps : CodeEditor.Props :=
  CodeEditor.mkProps "uA" "Alice" "alice@x.com" None.
Definition bobProps : CodeEditor.Props :=
  CodeEditor.mkProps "uB" "Bob" "bob@x.com" (Some "https://x.com/bob.png").

End Cases.

(** * Properties *)

(** ** Access control on session open *)

Section AccessControl.

Import Editor.


Lemma level_Owner_iff (D : FileData) (U : User) :
  level D U = Owner ↔ isOwner D U = true.
Proof.
  unfold level. destruct (isOwner D U); [done|].
  destruct (isEditor D U); split; discriminate.
Qed.

Lemma level_Viewer_iff (D : FileData) (U : User) :
  level D U = Viewer ↔ readOnlyFor D U = true.
Proof.
  unfold level, readOnlyFor.
  destruct (isOwner D U), (isEditor D U); simpl; split; done.
Qed.





Import Firestore.

(** C2 at the failing input: Alice grants Bob the editor role; Bob has an
    account, so the grant is stored under his user id.  The shared-with-me
    filter lists the document for Bob, but the editor page looks the grant up
    under his email only and opens the session read-only. *)
Theorem editor_grant_under_uid_opens_read_only :
  Scenario.shareWithBob editor
    = (ShareDialog.ShareDone, ShareDialog.closed, Scenario.dbBobEditor)
  ∧ files Scenario.dbBobEditor !! "f1" = Some (Scenario.sharedAppPy editor)
  ∧ default ∅ (sharedWith (Scenario.sharedAppPy editor)) !! uid Scenario.bob
      = Some (mkShareData "bob@x.com" editor (Some "uB"))
  ∧ SharedFiles.isShared Scenario.bob (Scenario.sharedAppPy editor) = true
  ∧ isOwner (Scenario.sharedAppPy editor) Scenario.bob = false
  ∧ isEditor (Scenario.sharedAppPy editor) Scenario.bob = false
  ∧ level (Scenario.sharedAppPy editor) Scenario.bob = Viewer
  ∧ isReadOnly (Scenario.bobSession editor) = true.
Proof. repeat split; vm_compute; reflexivity. Qed.

(** The same in general: a grant stored under the user's id alone never
    makes the session editable. *)
Lemma grant_under_uid_only_is_read_only (D : FileData) (U : User) m :
  ownerId D ≠ uid U →
  sharedWith D = Some m →
  m !! JS.orDefault (email U) EmptyString = None →
  readOnlyFor D U = true.
Proof.
  intros Hne Hm Hk. unfold readOnlyFor, isOwner, isEditor.
  rewrite Hm, Hk. by rewrite bool_decide_eq_false_2.
Qed.

End AccessControl.

(** ** The save path of the editor page *)

Section SavePath.

Import Firestore Editor.

Lemma updateDoc_Some fid patch db db' :
  updateDoc fid patch db = Some db' ↔
  ∃ d, files db !! fid = Some d
       ∧ db' = withFiles (<[fid := patch d]> (files db)) db.
Proof.
  unfold updateDoc. destruct (files db !! fid) as [d|]; split.
  - intros [= <-]. by exists d.
  - intros (d' & [= <-] & ->). done.
  - discriminate.
  - intros (d' & [=] & _).
Qed.

Lemma updateDoc_lookup fid patch db db' d :
  files db !! fid = Some d →
  updateDoc fid patch db = Some db' →
  files db' !! fid = Some (patch d).
Proof.
  intros Hd (d' & Hd' & ->)%updateDoc_Some. simpl.
  rewrite lookup_insert_eq. congruence.
Qed.

Lemma updateDoc_lookup_ne fid fid' patch db db' :
  fid ≠ fid' →
  updateDoc fid patch db = Some db' →
  files db' !! fid' = files db !! fid'.
Proof.
  intros Hne (d' & Hd' & ->)%updateDoc_Some. simpl.
  by rewrite lookup_insert_ne.
Qed.

(** Two writes of the same fields to the same document: the second alone
    decides the result. *)
Lemma updateDoc_patchContent_twice fid c1 c2 t1 t2 db db1 db2 :
  updateDoc fid (patchContent c1 t1) db = Some db1 →
  updateDoc fid (patchContent c2 t2) db1 = Some db2 →
  updateDoc fid (patchContent c2 t2) db = Some db2.
Proof.
  intros (d & Hd & ->)%updateDoc_Some (d1 & Hd1 & ->)%updateDoc_Some.
  simpl in *. rewrite lookup_insert_eq in Hd1. injection Hd1 as <-.
  apply updateDoc_Some. exists d. split; [done|].
  unfold withFiles; simpl. by rewrite insert_insert_eq.
Qed.

(** The cases of [handleSave], read backwards from its outcome. *)
Lemma handleSave_written cu v now s db s' db' :
  handleSave cu v now s db = (SaveWritten, s', db') ↔
  ∃ f c, file s = Some f ∧ is_Some cu ∧ v = Some c ∧ JS.truthy c = true
         ∧ isSaving s = false
         ∧ updateDoc (id f) (patchContent c now) db = Some db'
         ∧ s' = setIsSaving false s.
Proof.
  unfold handleSave. split.
  - destruct (file s) as [f|]; [|discriminate].
    destruct cu as [u|]; [|discriminate].
    destruct v as [c|]; [|discriminate].
    destruct (JS.truthy c) eqn:Hc; [|discriminate].
    destruct (isSaving s) eqn:Hs; [discriminate|]. simpl.
    destruct (updateDoc _ _ _) as [db1|] eqn:Hu; [|discriminate].
    intros [= <- <-]. exists f, c. eauto 10.
  - intros (f & c & -> & [u ->] & -> & -> & -> & -> & ->). done.
Qed.

Lemma handleSave_not_written cu v now s db o s' db' :
  handleSave cu v now s db = (o, s', db') → o ≠ SaveWritten → db' = db.
Proof.
  unfold handleSave.
  destruct (file s) as [f|]; [|by intros [= <- <- <-]].
  destruct cu as [u|]; [|by intros [= <- <- <-]].
  destruct v as [c|]; [|by intros [= <- <- <-]].
  destruct (negb (JS.truthy c) || isSaving s); [by intros [= <- <- <-]|].
  destruct (updateDoc _ _ _); intros [= <- <- <-]; done.
Qed.

(** [handleSave] never consults the read-only flag of the session. *)
Lemma handleSave_ignores_isReadOnly cu v now s db b :
  handleSave cu v now (setIsReadOnly b s) db
  = let '(o, s', db') := handleSave cu v now s db in (o, setIsReadOnly b s', db').
Proof.
  unfold handleSave. simpl.
  destruct (file s) as [f|]; [|done].
  destruct cu as [u|]; [|done].
  destruct v as [c|]; [|done].
  destruct (negb (JS.truthy c) || isSaving s); [done|].
  destruct (updateDoc _ _ _); done.
Qed.

(** C3 at the failing input: Bob holds a viewer grant, his session is
    read-only and so is the editor widget, yet a click on Save runs
    [handleSave], which writes [content] and a new [lastModified]. *)
Theorem viewer_save_click_writes :
  level (Scenario.sharedAppPy viewer) Scenario.bob = Viewer
  ∧ isReadOnly (Scenario.bobSession viewer) = true
  ∧ editorReadOnly (Scenario.bobSession viewer) = true
  ∧ lastModified <$> files Scenario.dbBobViewer !! "f1" = Some 2
  ∧ ∃ db',
      onSaveClick (Some Scenario.bob) 9 (Scenario.bobSession viewer) Scenario.dbBobViewer
        = (SaveWritten, Scenario.bobSession viewer, db')
      ∧ lastModified <$> files db' !! "f1" = Some 9
      ∧ db' ≠ Scenario.dbBobViewer.
Proof.
  repeat (split; [vm_compute; reflexivity|]).
  eexists. split; [vm_compute; reflexivity|].
  split; [vm_compute; reflexivity|].
  intros Heq. apply (f_equal (λ db, lastModified <$> files db !! "f1")) in Heq.
  vm_compute in Heq. discriminate.
Qed.

(** C10: [handleSave] returns at its guard when the content is [undefined]
    or empty, so it issues no write; and no call of it can leave a document
    with empty content that was not already stored that way.  The [onChange]
    wiring inherits this: clearing the editor changes the local copy only. *)
Theorem empty_save_dropped cu now s db :
  handleSave cu None now s db = (SaveSkipped, s, db)
  ∧ handleSave cu (Some EmptyString) now s db = (SaveSkipped, s, db)
  ∧ (onChange cu None now s db).2 = db
  ∧ (onChange cu (Some EmptyString) now s db).2 = db
  ∧ ∀ v fid d,
      files (handleSave cu v now s db).2 !! fid = Some d →
      content d = Some EmptyString →
      files db !! fid = Some d.
Proof.
  assert (H1 : handleSave cu None now s db = (SaveSkipped, s, db)).
  { unfold handleSave. destruct (file s), cu; done. }
  assert (H2 : handleSave cu (Some EmptyString) now s db = (SaveSkipped, s, db)).
  { unfold handleSave. destruct (file s), cu; done. }
  split; [done|]. split; [done|].
  split; [unfold onChange; rewrite H1; by destruct (file s)|].
  split; [unfold onChange; rewrite H2; by destruct (file s)|].
  intros v fid d Hd Hc.
  destruct (handleSave cu v now s db) as [[o s'] db'] eqn:Hs. simpl in Hd.
  assert (o = SaveWritten ∨ o ≠ SaveWritten) as [->|Hne]
    by (destruct o; [right|left|right]; done).
  2: { by rewrite (handleSave_not_written _ _ _ _ _ _ _ _ Hs Hne) in Hd. }
  apply handleSave_written in Hs
    as (f & c & _ & _ & _ & Hc' & _ & Hu & _).
  destruct (decide (id f = fid)) as [<-|Hfid].
  - apply updateDoc_Some in Hu as Hu'. destruct Hu' as (d0 & Hd0 & _).
    rewrite (updateDoc_lookup _ _ _ _ _ Hd0 Hu) in Hd.
    injection Hd as <-. simpl in Hc. injection Hc as ->. discriminate.
  - by rewrite (updateDoc_lookup_ne _ _ _ _ _ Hfid Hu) in Hd.
Qed.

Lemma empty_save_dropped_witness :
  files (handleSave (Some Scenario.alice) (Some "x = 1") 9
           Scenario.aliceSession Scenario.dbTwo).2 !! "f2"
    = Some Scenario.emptyPy
  ∧ content Scenario.emptyPy = Some EmptyString
  ∧ files Scenario.dbTwo !! "f2" = Some Scenario.emptyPy.
Proof.
  assert (H1 : files (handleSave (Some Scenario.alice) (Some "x = 1") 9
                        Scenario.aliceSession Scenario.dbTwo).2 !! "f2"
               = Some Scenario.emptyPy) by (vm_compute; reflexivity).
  assert (H2 : content Scenario.emptyPy = Some EmptyString) by reflexivity.
  split; [exact H1|]. split; [exact H2|].
  exact (proj2 (proj2 (proj2 (proj2
           (empty_save_dropped (Some Scenario.alice) 9
              Scenario.aliceSession Scenario.dbTwo))))
         (Some "x = 1") "f2" Scenario.emptyPy H1 H2).
Defined.

End SavePath.

(** ** Last write wins *)

Section LastWriteWins.

Import Firestore Editor.

(** The snapshot callback overwrites what an earlier snapshot of the same
    kind of document left in the session. *)
Lemma onSnapshot_absorbs U fid d1 d2 s :
  type d1 = type d2 →
  onSnapshot U fid (Some d2) (onSnapshot U fid (Some d1) s)
  = onSnapshot U fid (Some d2) s.
Proof.
  intros Hty. unfold onSnapshot. rewrite Hty.
  destruct (type d2); reflexivity.
Qed.

(** C7: two saves of the same document commit one after the other, with
    contents [C1] then [C2].  The store ends as if only the second save had
    been made, the stored content is [C2], and a session that receives the
    snapshot of each commit ends in the state it would have after the
    snapshot of the second save alone, showing [C2]. *)
Theorem last_write_wins
    (u1 u2 : User) (C1 C2 : string) (t1 t2 : nat) (s1 s2 s1' s2' : State)
    (f1 f2 : File) (db db1 db2 : Db) :
  file s1 = Some f1 → file s2 = Some f2 → id f1 = id f2 →
  handleSave (Some u1) (Some C1) t1 s1 db = (SaveWritten, s1', db1) →
  handleSave (Some u2) (Some C2) t2 s2 db1 = (SaveWritten, s2', db2) →
  handleSave (Some u2) (Some C2) t2 s2 db = (SaveWritten, s2', db2)
  ∧ content <$> files db2 !! id f2 = Some (Some C2)
  ∧ ∀ (U : User) (s : State),
      let after1 := onSnapshot U (id f2) (files db1 !! id f2) s in
      let after2 := onSnapshot U (id f2) (files db2 !! id f2) after1 in
      after2 = onSnapshot U (id f2) (files db2 !! id f2) s
      ∧ (type <$> files db !! id f2 = Some type_file →
         (λ f, content (data f)) <$> file after2 = Some (Some C2)).
Proof.
  intros Hf1 Hf2 Hid
    (f1' & c1 & Hf1' & _ & [= <-] & Hc1 & Hs1 & Hu1 & ->)%handleSave_written
    (f2' & c2 & Hf2' & _ & [= <-] & Hc2 & Hs2 & Hu2 & ->)%handleSave_written.
  rewrite Hf1 in Hf1'. injection Hf1' as <-.
  rewrite Hf2 in Hf2'. injection Hf2' as <-.
  rewrite Hid in Hu1.
  pose proof (updateDoc_patchContent_twice _ _ _ _ _ _ _ _ Hu1 Hu2) as Hu.
  apply updateDoc_Some in Hu1 as Hu1'. destruct Hu1' as (d & Hd & _).
  pose proof (updateDoc_lookup _ _ _ _ _ Hd Hu1) as Hd1.
  pose proof (updateDoc_lookup _ _ _ _ _ Hd Hu) as Hd2.
  split.
  { apply handleSave_written. exists f2, C2. eauto 10. }
  split; [by rewrite Hd2|].
  intros U s. simpl. rewrite Hd1, Hd2. split.
  - by apply onSnapshot_absorbs.
  - rewrite Hd. intros [= Hty].
    rewrite onSnapshot_absorbs by done.
    unfold onSnapshot. simpl. rewrite Hty. reflexivity.
Qed.

Lemma last_write_wins_witness :
  content <$> files
     (handleSave (Some Scenario.alice) (Some "b = 2") 8 Scenario.aliceSession
        (handleSave (Some Scenario.alice) (Some "a = 1") 7
           Scenario.aliceSession Scenario.db0).2).2 !! "f1"
  = Some (Some "b = 2").
Proof.
  pose (db1 := (handleSave (Some Scenario.alice) (Some "a = 1") 7
                  Scenario.aliceSession Scenario.db0).2).
  pose (db2 := (handleSave (Some Scenario.alice) (Some "b = 2") 8
                  Scenario.aliceSession db1).2).
  refine (proj1 (proj2
    (last_write_wins Scenario.alice Scenario.alice "a = 1" "b = 2" 7 8
       Scenario.aliceSession Scenario.aliceSession
       Scenario.aliceSession Scenario.aliceSession
       (mkFile "f1" Scenario.appPy) (mkFile "f1" Scenario.appPy)
       Scenario.db0 db1 db2 _ _ _ _ _)));
    vm_compute; reflexivity.
Defined.

End LastWriteWins.

(** ** Sharing *)

Section Sharing.

Import Firestore ShareDialog.

Lemma alreadyShared_spec (f : File) (k : string) :
  is_Some (sharedWithOrEmpty (data f) !! k) → alreadyShared f k = true.
Proof.
  unfold alreadyShared, sharedWithOrEmpty.
  destruct (sharedWith (data f)) as [m|]; simpl.
  - intros H. by rewrite bool_decide_eq_true_2.
  - rewrite lookup_empty. by intros [? ?].
Qed.

Lemma alreadyShared_false (f : File) (k : string) :
  alreadyShared f k = false → sharedWithOrEmpty (data f) !! k = None.
Proof.
  intros H. apply eq_None_not_Some. intros Hs.
  apply alreadyShared_spec in Hs. congruence.
Qed.

(** The check passes exactly for a key that has no grant in the dialog's
    copy and, when that copy has a [sharedWith] object at all, names no
    inherited member. *)
Lemma alreadyShared_false_iff (f : File) (k : string) :
  alreadyShared f k = false ↔
  sharedWithOrEmpty (data f) !! k = None
  ∧ (is_Some (sharedWith (data f)) → JS.inherited k = false).
Proof.
  unfold alreadyShared, sharedWithOrEmpty.
  destruct (sharedWith (data f)) as [m|]; simpl.
  - rewrite orb_false_iff, bool_decide_eq_false, <- eq_None_not_Some.
    split; [intros [??]; auto | intros [? H]; split; [done|apply H; eauto]].
  - rewrite lookup_empty. split; [|done]. intros _. split; [done|].
    by intros [? ?].
Qed.

(** The two guarded failures of [handleShare]. *)
Lemma handleShare_self (cu : User) f now s db :
  JS.blank (d_email s) = false →
  Some (d_email s) = email cu →
  handleShare (Some cu) f now s db = (ShareSelf, failWith errSelf s, db).
Proof.
  intros Hb He. unfold handleShare. rewrite Hb.
  by rewrite bool_decide_eq_true_2.
Qed.

Lemma handleShare_already (cu : User) f now s db :
  JS.blank (d_email s) = false →
  Some (d_email s) ≠ email cu →
  is_Some (sharedWithOrEmpty (data f) !! resolveKey (d_email s) db) →
  handleShare (Some cu) f now s db = (ShareAlready, failWith errAlready s, db).
Proof.
  intros Hb He Hk%alreadyShared_spec. unfold handleShare. rewrite Hb.
  rewrite bool_decide_eq_false_2 by done. by rewrite Hk.
Qed.

(** A share that goes through adds the grant under the resolved key and
    creates the notification. *)
Lemma handleShare_done (cu : User) f now s db d :
  JS.blank (d_email s) = false →
  Some (d_email s) ≠ email cu →
  sharedWithOrEmpty (data f) !! resolveKey (d_email s) db = None →
  JS.inherited (resolveKey (d_email s) db) = false →
  files db !! id f = Some d →
  let key := resolveKey (d_email s) db in
  let shared :=
    <[key := mkShareData (d_email s) (d_permission s) (Some key)]>
      (sharedWithOrEmpty (data f)) in
  handleShare (Some cu) f now s db
  = (ShareDone, closed,
     addNotification (notificationFor cu f key (d_permission s) now)
       (withFiles (<[id f := patchSharedWith shared now d]> (files db)) db)).
Proof.
  intros Hb He Hk Hin Hd. unfold handleShare. rewrite Hb.
  rewrite bool_decide_eq_false_2 by done.
  rewrite (proj2 (alreadyShared_false_iff f _) (conj Hk (λ _, Hin))).
  unfold updateDoc. by rewrite Hd.
Qed.

(** Whatever [handleShare] returns other than [ShareDone], the database is
    the one it was given. *)
Lemma handleShare_not_done cu f now s db o s' db' :
  handleShare cu f now s db = (o, s', db') → o ≠ ShareDone → db' = db.
Proof.
  unfold handleShare. destruct cu as [u|]; [|by intros [= <- <- <-]].
  destruct (JS.blank _); [by intros [= <- <- <-]|].
  destruct (bool_decide _); [by intros [= <- <- <-]|].
  destruct (alreadyShared _ _); [by intros [= <- <- <-]|].
  destruct (updateDoc _ _ _); intros [= <- <- <-]; done.
Qed.

Lemma handleShare_error cu f now s db o s' db' :
  handleShare cu f now s db = (o, s', db') →
  (o = ShareSelf → s' = failWith errSelf s)
  ∧ (o = ShareAlready → s' = failWith errAlready s).
Proof.
  unfold handleShare. destruct cu as [u|]; [|by intros [= <- <- <-]].
  destruct (JS.blank _); [by intros [= <- <- <-]|].
  destruct (bool_decide _); [by intros [= <- <- <-]|].
  destruct (alreadyShared _ _); [by intros [= <- <- <-]|].
  destruct (updateDoc _ _ _); intros [= <- <- <-]; done.
Qed.

(** C5: a share attempt that ends in 'You cannot share with yourself' or in
    'User already has access' leaves the database as it was: no document
    changes ([sharedWith] and [lastModified] in particular) and no
    notification is added; and sharing with one's own email always ends in
    the former. *)
Theorem failed_share_no_mutation cu f now s db o s' db' :
  handleShare cu f now s db = (o, s', db') →
  o = ShareSelf ∨ o = ShareAlready →
  db' = db
  ∧ files db' !! id f = files db !! id f
  ∧ notifications db' = notifications db
  ∧ (d_error s' = errSelf ∨ d_error s' = errAlready)
  ∧ (o = ShareSelf ↔
       ∃ u, cu = Some u ∧ JS.blank (d_email s) = false
            ∧ Some (d_email s) = email u).
Proof.
  intros Hs Ho.
  assert (db' = db) as ->.
  { eapply handleShare_not_done; [done|]. destruct Ho as [-> | ->]; done. }
  split; [done|]. split; [done|]. split; [done|].
  destruct (handleShare_error _ _ _ _ _ _ _ _ Hs) as [Hself Halr].
  split.
  { destruct Ho as [-> | ->]; [rewrite Hself|rewrite Halr]; auto. }
  split.
  - intros ->. revert Hs. unfold handleShare.
    destruct cu as [u|]; [|discriminate].
    destruct (JS.blank _) eqn:Hb; [discriminate|].
    destruct (bool_decide _) eqn:He.
    + apply bool_decide_eq_true in He. eauto.
    + destruct (alreadyShared _ _); [discriminate|].
      destruct (updateDoc _ _ _); discriminate.
  - intros (u & -> & Hb & He).
    rewrite (handleShare_self u f now s db Hb He) in Hs. congruence.
Qed.

Lemma failed_share_no_mutation_witness :
  let r := handleShare (Some Scenario.alice)
             (mkFile "f1" (Scenario.sharedAppPy viewer)) 4
             (Scenario.formFor "bob@x.com" editor) Scenario.dbBobViewer in
  r.1.1 = ShareAlready
  ∧ r.2 = Scenario.dbBobViewer
  ∧ notifications r.2 = notifications Scenario.dbBobViewer.
Proof.
  intros r.
  assert (Hr : handleShare (Some Scenario.alice)
                 (mkFile "f1" (Scenario.sharedAppPy viewer)) 4
                 (Scenario.formFor "bob@x.com" editor) Scenario.dbBobViewer
               = (r.1.1, r.1.2, r.2)) by (vm_compute; reflexivity).
  assert (Ho : r.1.1 = ShareAlready) by (vm_compute; reflexivity).
  destruct (failed_share_no_mutation _ _ _ _ _ _ _ _ Hr (or_intror Ho))
    as (Hdb & _ & Hn & _).
  exact (conj Ho (conj Hdb Hn)).
Defined.

End Sharing.

(** ** Grants in reachable states *)

Section Grants.

Import Firestore ShareDialog System.


Lemma invitedAgain_reachable : reachable Scenario.invitedAgain.
Proof.
  exists [Scenario.signedUp; Scenario.invited; Scenario.created; initial].
  apply run_step; [apply run_step; [apply run_step; [apply run_step|]|]|].
  - apply run_initial.
  - apply (step_create _ Scenario.alice "f1" 1 Scenario.createForm initial).
    reflexivity.
  - apply (step_share _ Scenario.alice "f1" Scenario.createdDoc 2
             (Scenario.formFor "bob@x.com" viewer) Scenario.created Scenario.created);
      [apply list_elem_of_here | vm_compute; reflexivity].
  - apply (step_register _ "uB" "bob@x.com" Scenario.invited).
  - apply (step_share _ Scenario.alice "f1" Scenario.invitedDoc 3
             (Scenario.formFor "bob@x.com" editor) Scenario.signedUp Scenario.signedUp);
      [apply list_elem_of_here | vm_compute; reflexivity].
Qed.

Lemma twiceGranted_holds (p : Permission) :
  holds Scenario.bob Scenario.twiceGranted p.
Proof.
  destruct p.
  - exists "uB", (mkShareData "bob@x.com" editor (Some "uB")).
    repeat split; vm_compute; reflexivity.
  - exists "bob@x.com", (mkShareData "bob@x.com" viewer (Some "bob@x.com")).
    repeat split; vm_compute; reflexivity.
Qed.

(** C4 at the failing input: Alice invites [bob@x.com] before Bob has an
    account, Bob signs up, and Alice invites [bob@x.com] again.  The
    duplicate check looks for the new key (Bob's user id) only and misses
    the grant filed under his email, so the second share goes through and
    the document records two grants for Bob, a viewer grant under his email
    and an editor grant under his user id. *)
Lemma two_grants_for_one_user :
  reachable Scenario.invitedAgain
  ∧ files Scenario.invitedAgain !! "f1" = Some Scenario.twiceGranted
  ∧ holds Scenario.bob Scenario.twiceGranted viewer
  ∧ holds Scenario.bob Scenario.twiceGranted editor
  ∧ ¬ oneLevelPerUser Scenario.invitedAgain.
Proof.
  assert (Hd : files Scenario.invitedAgain !! "f1" = Some Scenario.twiceGranted)
    by (vm_compute; reflexivity).
  split; [apply invitedAgain_reachable|]. split; [exact Hd|].
  split; [apply twiceGranted_holds|]. split; [apply twiceGranted_holds|].
  intros Hone.
  pose proof (Hone "f1" Scenario.twiceGranted Scenario.bob viewer editor Hd
                (twiceGranted_holds viewer) (twiceGranted_holds editor)).
  discriminate.
Qed.

End Grants.

(** ** Listings and soft deletion *)

Section Listings.

Import Firestore Listing.

Lemma elem_of_allFiles (db : Db) (f : File) :
  f ∈ allFiles db ↔ files db !! id f = Some (data f).
Proof.
  unfold allFiles. rewrite list_elem_of_fmap. split.
  - intros ([k d] & -> & Hkd). by apply elem_of_map_to_list in Hkd.
  - intros Hf. exists (id f, data f). split; [by destruct f|].
    by apply elem_of_map_to_list.
Qed.

Lemma elem_of_insertByRecent (x f : File) (l : list File) :
  x ∈ insertByRecent f l ↔ x = f ∨ x ∈ l.
Proof.
  induction l as [|g l IH]; simpl.
  - rewrite list_elem_of_singleton. split; [auto|].
    intros [?|H]; [done | by apply elem_of_nil in H].
  - destruct (_ <=? _)%nat.
    + by rewrite elem_of_cons.
    + rewrite !elem_of_cons, IH. tauto.
Qed.

Lemma elem_of_sortByRecent (x : File) (l : list File) :
  x ∈ sortByRecent l ↔ x ∈ l.
Proof.
  unfold sortByRecent. induction l as [|g l IH]; simpl; [done|].
  rewrite elem_of_insertByRecent, elem_of_cons, IH. done.
Qed.

Lemma elem_of_List_filter {A} (P : A → bool) (l : list A) (x : A) :
  x ∈ List.filter P l ↔ x ∈ l ∧ P x = true.
Proof. rewrite !list_elem_of_In. apply filter_In. Qed.

(** Membership in the three listings. *)
Lemma elem_of_FileSystem_view U path db f :
  f ∈ FileSystem.view U path db ↔
  FileSystem.atPath path f = true
  ∧ ∃ g, f = FileSystem.listed g ∧ g ∈ allFiles db
         ∧ ownerId (data g) = uid U.
Proof.
  unfold FileSystem.view, FileSystem.ownedQuery.
  rewrite elem_of_List_filter, elem_of_sortByRecent, list_elem_of_fmap.
  setoid_rewrite list_elem_of_filter. split.
  - intros [(g & -> & Ho & Hg) Hp]. split; [done|]. by exists g.
  - intros [Hp (g & -> & Hg & Ho)]. split; [|done]. by exists g.
Qed.

Lemma elem_of_StarredFiles_view U db f :
  f ∈ StarredFiles.view U db ↔
  ∃ g, f = StarredFiles.listed g ∧ g ∈ allFiles db
       ∧ (ownerId (data g) = uid U ∧ starred (data g) = true).
Proof.
  unfold StarredFiles.view. rewrite list_elem_of_fmap.
  setoid_rewrite list_elem_of_filter.
  split; intros (g & -> & H1 & H2); by exists g.
Qed.

Lemma elem_of_SharedFiles_view U db f :
  f ∈ SharedFiles.view U db ↔
  ∃ g, f = SharedFiles.listed g ∧ g ∈ allFiles db
       ∧ SharedFiles.isShared U (data g) = true.
Proof.
  unfold SharedFiles.view. rewrite list_elem_of_fmap.
  setoid_rewrite elem_of_List_filter.
  split; intros (g & -> & H1 & H2); by exists g.
Qed.

(** A listing that projects away [deleted] and selects on other fields
    cannot tell a soft-deleted document from the live one. *)
Lemma soft_delete_projection (proj : File → File) (P : File → Prop)
    fid db db' x :
  (∀ g, proj (softDeleted g) = proj g) →
  (∀ g, P (softDeleted g) ↔ P g) →
  updateDoc fid patchDeleted db = Some db' →
  (∃ g, x = proj g ∧ g ∈ allFiles db' ∧ P g)
  ↔ (∃ g, x = proj g ∧ g ∈ allFiles db ∧ P g).
Proof.
  intros Hproj HP Hu.
  assert (Hu' := Hu). apply updateDoc_Some in Hu' as (d0 & Hd0 & _).
  split; intros (g & -> & Hg & Hpg); apply elem_of_allFiles in Hg.
  - destruct (decide (fid = id g)) as [Hid|Hne].
    + rewrite <- Hid, (updateDoc_lookup _ _ _ _ _ Hd0 Hu) in Hg.
      injection Hg as Hg.
      assert (g = softDeleted (mkFile fid d0)) as ->
        by (destruct g; simpl in *; unfold softDeleted; simpl; congruence).
      exists (mkFile fid d0). rewrite Hproj, elem_of_allFiles.
      split; [done|]. split; [done|]. by apply HP.
    + rewrite (updateDoc_lookup_ne _ _ _ _ _ Hne Hu) in Hg.
      exists g. by rewrite elem_of_allFiles.
  - destruct (decide (fid = id g)) as [Hid|Hne].
    + exists (softDeleted g). rewrite Hproj, elem_of_allFiles.
      split; [done|]. split; [|by apply HP]. simpl.
      rewrite <- Hid in *. rewrite Hd0 in Hg. injection Hg as <-.
      by apply (updateDoc_lookup _ _ _ _ _ Hd0 Hu).
    + exists g. rewrite elem_of_allFiles.
      by rewrite (updateDoc_lookup_ne _ _ _ _ _ Hne Hu).
Qed.

(** A stored document is in every listing whose predicate its fields
    satisfy; [deleted] is not among the fields the predicates read. *)
Lemma stored_document_listed (U : User) (fid : string) (d : FileData) (db : Db) :
  files db !! fid = Some d →
  (ownerId d = uid U →
     (∀ path, FileSystem.atPath path (mkFile fid d) = true →
        fid ∈ id <$> FileSystem.view U path db)
     ∧ (starred d = true → fid ∈ id <$> StarredFiles.view U db))
  ∧ (SharedFiles.isShared U d = true → fid ∈ id <$> SharedFiles.view U db).
Proof.
  intros Hd.
  assert (Hin : mkFile fid d ∈ allFiles db) by by apply elem_of_allFiles.
  split.
  - intros Hown. split.
    + intros path Hp. apply list_elem_of_fmap.
      exists (FileSystem.listed (mkFile fid d)). split; [done|].
      apply elem_of_FileSystem_view. split; [by destruct path|].
      by exists (mkFile fid d).
    + intros Hst. apply list_elem_of_fmap.
      exists (StarredFiles.listed (mkFile fid d)). split; [done|].
      apply elem_of_StarredFiles_view. by exists (mkFile fid d).
  - intros Hsh. apply list_elem_of_fmap.
    exists (SharedFiles.listed (mkFile fid d)). split; [done|].
    apply elem_of_SharedFiles_view. by exists (mkFile fid d).
Qed.

Lemma stored_file_opens (U : User) (fid : string) (d : FileData) :
  type d = type_file →
  (∀ p, (SharedFiles.handleFileClick (SharedFiles.listed (mkFile fid d)) p).2
        = Some ("/editor/" ++ fid))
  ∧ ∀ s, Editor.file (Editor.onSnapshot U fid (Some d) s) = Some (mkFile fid d)
         ∧ Editor.error (Editor.onSnapshot U fid (Some d) s) = Editor.error s.
Proof.
  intros Hty. split.
  - intros p. unfold SharedFiles.handleFileClick. simpl. by rewrite Hty.
  - intros s. unfold Editor.onSnapshot. by rewrite Hty.
Qed.

(** C9: the delete action of an open editor sets [deleted = true] on the
    stored document and changes no other field and no other document; the
    three listings are the same before and after it, so the deleted
    document is still listed wherever its other fields match, and the
    editor page still opens it.  The same holds of every stored document
    with [deleted = true], however it got the mark. *)
Theorem soft_delete_keeps_document_listed
    (U cu : User) (fid : string) (d : FileData) (db : Db)
    (s : Editor.State) (f : File) :
  files db !! fid = Some d →
  Editor.file s = Some f →
  id f = fid →
  (∃ db' d',
     Editor.handleDelete (Some cu) s db = (Editor.navigate "/files" s, db')
     ∧ files db' !! fid = Some d'
     ∧ deleted d' = true
     ∧ name d' = name d ∧ type d' = type d ∧ language d' = language d
     ∧ content d' = content d ∧ lastModified d' = lastModified d
     ∧ parentId d' = parentId d ∧ ownerId d' = ownerId d
     ∧ starred d' = starred d ∧ sharedWith d' = sharedWith d
     ∧ (∀ fid', fid' ≠ fid → files db' !! fid' = files db !! fid')
     ∧ (∀ V path x, x ∈ FileSystem.view V path db' ↔ x ∈ FileSystem.view V path db)
     ∧ (∀ V x, x ∈ StarredFiles.view V db' ↔ x ∈ StarredFiles.view V db)
     ∧ (∀ V x, x ∈ SharedFiles.view V db' ↔ x ∈ SharedFiles.view V db)
     ∧ (ownerId d = uid U →
          (∀ path, FileSystem.atPath path (mkFile fid d) = true →
             fid ∈ id <$> FileSystem.view U path db')
          ∧ (starred d = true → fid ∈ id <$> StarredFiles.view U db'))
     ∧ (SharedFiles.isShared U d = true → fid ∈ id <$> SharedFiles.view U db')
     ∧ (type d = type_file →
          (∀ p, (SharedFiles.handleFileClick
                   (SharedFiles.listed (mkFile fid d')) p).2
                = Some ("/editor/" ++ fid))
          ∧ ∀ s0, Editor.file (Editor.onSnapshot U fid (files db' !! fid) s0)
                  = Some (mkFile fid d')
                  ∧ Editor.error (Editor.onSnapshot U fid (files db' !! fid) s0)
                    = Editor.error s0))
  ∧ (∀ fid0 d0,
       files db !! fid0 = Some d0 → deleted d0 = true →
       (ownerId d0 = uid U →
          (∀ path, FileSystem.atPath path (mkFile fid0 d0) = true →
             fid0 ∈ id <$> FileSystem.view U path db)
          ∧ (starred d0 = true → fid0 ∈ id <$> StarredFiles.view U db))
       ∧ (SharedFiles.isShared U d0 = true → fid0 ∈ id <$> SharedFiles.view U db)
       ∧ (type d0 = type_file →
          ∀ s0, Editor.file (Editor.onSnapshot U fid0 (Some d0) s0)
                = Some (mkFile fid0 d0))).
Proof.
  intros Hd Hf Hid. split.
  - destruct (updateDoc fid patchDeleted db) as [db1|] eqn:Hu; cycle 1.
    { unfold updateDoc in Hu. by rewrite Hd in Hu. }
    pose proof (updateDoc_lookup _ _ _ _ _ Hd Hu) as Hd1.
    exists db1, (patchDeleted d).
    split; [unfold Editor.handleDelete; by rewrite Hf, Hid, Hu|].
    split; [exact Hd1|].
    do 10 (split; [reflexivity|]).
    split; [intros fid' Hne; by apply (updateDoc_lookup_ne _ _ _ _ _ (not_eq_sym Hne) Hu)|].
    split.
    { intros V path x. rewrite !elem_of_FileSystem_view.
      apply and_iff_compat_l.
      by apply (soft_delete_projection FileSystem.listed
                  (λ g, ownerId (data g) = uid V) fid). }
    split.
    { intros V x. rewrite !elem_of_StarredFiles_view.
      by apply (soft_delete_projection StarredFiles.listed
                  (λ g, ownerId (data g) = uid V ∧ starred (data g) = true) fid). }
    split.
    { intros V x. rewrite !elem_of_SharedFiles_view.
      by apply (soft_delete_projection SharedFiles.listed
                  (λ g, SharedFiles.isShared V (data g) = true) fid). }
    destruct (stored_document_listed U fid (patchDeleted d) db1 Hd1) as [Ho Hs].
    split; [exact Ho|]. split; [exact Hs|].
    intros Hty. rewrite Hd1. by apply stored_file_opens.
  - intros fid0 d0 Hd0 _.
    destruct (stored_document_listed U fid0 d0 db Hd0) as [Ho Hs].
    split; [exact Ho|]. split; [exact Hs|].
    intros Hty s0. by apply stored_file_opens.
Qed.

Lemma soft_delete_keeps_document_listed_witness :
  ∃ db' d',
    Editor.handleDelete (Some Scenario.alice) Cases.aliceOnLive Cases.dbLive
      = (Editor.navigate "/files" Cases.aliceOnLive, db')
    ∧ files db' !! "f1" = Some d'
    ∧ deleted d' = true
    ∧ "f1" ∈ id <$> FileSystem.view Scenario.alice [] db'
    ∧ "f1" ∈ id <$> StarredFiles.view Scenario.alice db'.
Proof.
  assert (Hd : files Cases.dbLive !! "f1" = Some Cases.live)
    by (vm_compute; reflexivity).
  destruct (soft_delete_keeps_document_listed Scenario.alice Scenario.alice "f1"
              Cases.live Cases.dbLive Cases.aliceOnLive (mkFile "f1" Cases.live)
              Hd eq_refl eq_refl)
    as [(db' & d' & Hdel & Hd' & Hflag & _ & _ & _ & _ & _ & _ & _ & _ & _ & _
         & _ & _ & _ & Hown & _) _].
  exists db', d'. split; [exact Hdel|]. split; [exact Hd'|].
  split; [exact Hflag|].
  destruct (Hown eq_refl) as [Hfs Hst].
  split; [apply Hfs; reflexivity | apply Hst; reflexivity].
Defined.

End Listings.

(** ** Creating documents *)

Section Creation.

Import Firestore Listing.

Lemma split_String (sep c : ascii) (s : string) :
  JS.split sep (String c s)
  = if Ascii.eqb c sep then EmptyString :: JS.split sep s
    else match JS.split sep s with
         | seg :: rest => String c seg :: rest
         | [] => [String c EmptyString]
         end.
Proof. reflexivity. Qed.

Lemma split_dotted (stem ext : string) :
  JS.split "." ext = [ext] →
  ∃ seg rest, JS.split "." (stem ++ "." ++ ext) = seg :: rest ++ [ext].
Proof.
  intros Hext. induction stem as [|c stem IH].
  - change (EmptyString ++ "." ++ ext) with (String "." ext).
    rewrite split_String, Hext. by exists EmptyString, [].
  - change (String c stem ++ "." ++ ext) with (String c (stem ++ "." ++ ext)).
    rewrite split_String. destruct IH as (seg & rest & ->).
    destruct (Ascii.eqb c "."); [by exists EmptyString, (seg :: rest)|].
    by exists (String c seg), rest.
Qed.

(** The extension of [stem.ext] is [ext] in lower case. *)
Lemma extension_dotted (stem ext : string) :
  JS.split "." ext = [ext] →
  extension (stem ++ "." ++ ext) = Some (JS.toLowerCase ext).
Proof.
  intros Hext. unfold extension, JS.pop.
  destruct (split_dotted stem ext Hext) as (seg & rest & ->).
  by rewrite app_comm_cons, last_snoc.
Qed.

Lemma known_extension_plain (ext lang : string) :
  (ext, lang) ∈ languageMap →
  JS.split "." ext = [ext] ∧ JS.toLowerCase ext = ext
  ∧ JS.lookupLit ext languageMap = Some lang.
Proof.
  unfold languageMap. intros H.
  repeat (apply elem_of_cons in H as [[= -> ->]|H]; [by vm_compute|]).
  by apply elem_of_nil in H.
Qed.

(** On the shared-with-me page, a file named [stem.ext] with [ext] a key of
    the language table gets that language, and, unless [ext] is [txt], the
    starter content of the content table. *)
Lemma shared_create_known_extension (stem ext lang : string) :
  (ext, lang) ∈ languageMap →
  getFileLanguage (stem ++ "." ++ ext) = lang
  ∧ (ext ≠ "txt" →
     JS.lookupLit ext contentMap = Some (getInitialContent (stem ++ "." ++ ext))).
Proof.
  intros H. destruct (known_extension_plain ext lang H) as (Hs & Hl & Hk).
  unfold getFileLanguage, getInitialContent.
  rewrite (extension_dotted stem ext Hs), Hl. split.
  - unfold lookupOr. simpl JS.orDefault at 2.
    assert (JS.orElse ext EmptyString = ext) as -> by (by destruct ext).
    rewrite Hk. clear Hs Hl Hk. unfold languageMap in H.
    repeat (apply elem_of_cons in H as [[= -> ->]|H]; [reflexivity|]).
    by apply elem_of_nil in H.
  - intros Htxt. clear Hs Hl Hk. unfold languageMap in H.
    repeat (apply elem_of_cons in H as [[= -> ->]|H];
            [first [reflexivity | done]|]).
    by apply elem_of_nil in H.
Qed.

(** C6 at the failing input: the create dialog of the My-files page stores
    [app.py] with no [language] field and with empty content, although the
    helpers of the same page map the name to [python] and to the Python
    starter line; on the shared-with-me page, which does call the helpers,
    [notes.txt] gets the code comment instead of the empty starter content
    the table lists for [txt]. *)
Theorem my_files_create_ignores_extension :
  getFileLanguage "app.py" = "python"
  ∧ getInitialContent "app.py" = "# Start coding here" ++ JS.nl
  ∧ files Scenario.created !! "f1" = Some Scenario.createdDoc
  ∧ name Scenario.createdDoc = "app.py"
  ∧ language Scenario.createdDoc = None
  ∧ content Scenario.createdDoc = Some EmptyString
  ∧ (∀ cu s now, language (FileSystem.newDocument cu s now) = None)
  ∧ JS.lookupLit "txt" contentMap = Some EmptyString
  ∧ content (SharedFiles.newDocument Scenario.bob Scenario.bobAtTop 5)
    = Some ("// Start coding here" ++ JS.nl).
Proof.
  repeat match goal with |- _ ∧ _ => split end;
    try (intros; vm_compute; reflexivity).
Qed.

(** The shared-with-me page does store the language and the starter
    content for [app.py]. *)
Lemma shared_create_app_py (cu : User) s now :
  SharedFiles.newFileName s = "app.py" →
  SharedFiles.newFileType s = type_file →
  language (SharedFiles.newDocument cu s now) = Some "python"
  ∧ content (SharedFiles.newDocument cu s now)
    = Some ("# Start coding here" ++ JS.nl).
Proof.
  intros Hn Ht. unfold SharedFiles.newDocument. rewrite Hn, Ht. simpl.
  split; reflexivity.
Qed.

Import System.


Lemma inherited_false_function (k : string) :
  JS.inherited k = false → JS.inheritedFunction k = false.
Proof.
  unfold JS.inherited, JS.inheritedFunction, JS.objectPrototype.
  rewrite existsb_app. by intros [H _]%orb_false_iff.
Qed.

Lemma nonStringFields_false (s : SharedFiles.State) :
  SharedFiles.nonStringFields s = false → SharedFiles.functionFields s = false.
Proof.
  unfold SharedFiles.nonStringFields, SharedFiles.functionFields, inheritedKey.
  destruct (SharedFiles.newFileType s); [|done]. apply inherited_false_function.
Qed.




End Creation.

(** * Further properties of the code *)

(** ** File names, extensions and the two tables *)

Section Extensions.

Import Listing.

Lemma lowerChar_dot (c : ascii) :
  Ascii.eqb (JS.lowerChar c) "." = Ascii.eqb c ".".
Proof.
  destruct c as [b0 b1 b2 b3 b4 b5 b6 b7].
  destruct b0, b1, b2, b3, b4, b5, b6, b7; reflexivity.
Qed.

Lemma lowerChar_idem (c : ascii) :
  JS.lowerChar (JS.lowerChar c) = JS.lowerChar c.
Proof.
  destruct c as [b0 b1 b2 b3 b4 b5 b6 b7].
  destruct b0, b1, b2, b3, b4, b5, b6, b7; reflexivity.
Qed.

Lemma toLowerCase_idem (s : string) :
  JS.toLowerCase (JS.toLowerCase s) = JS.toLowerCase s.
Proof.
  induction s as [|c s IH]; simpl; [done|].
  by rewrite lowerChar_idem, IH.
Qed.

Lemma split_toLowerCase (s : string) :
  JS.split "." (JS.toLowerCase s) = JS.toLowerCase <$> JS.split "." s.
Proof.
  induction s as [|c s IH]; [done|].
  change (JS.toLowerCase (String c s))
    with (String (JS.lowerChar c) (JS.toLowerCase s)).
  rewrite !split_String, lowerChar_dot, IH.
  destruct (Ascii.eqb c "."); [done|].
  by destruct (JS.split "." s).
Qed.

Lemma extension_toLowerCase (n : string) :
  extension (JS.toLowerCase n) = extension n.
Proof.
  unfold extension, JS.pop. rewrite split_toLowerCase, fmap_last.
  destruct (last (JS.split "." n)) as [seg|]; simpl; [|done].
  by rewrite toLowerCase_idem.
Qed.

Lemma lookupLit_elem (k v : string) (tbl : list (string * string)) :
  JS.lookupLit k tbl = Some v → (k, v) ∈ tbl.
Proof.
  induction tbl as [|[k' v'] tbl IH]; simpl; [discriminate|].
  destruct (String.eqb k k') eqn:Hk.
  - apply String.eqb_eq in Hk as ->. intros [= ->]. apply list_elem_of_here.
  - intros H. apply list_elem_of_further. by apply IH.
Qed.

(** The language and the starter content depend on the file name only up
    to letter case. *)
Theorem language_ignores_case (n m : string) :
  JS.toLowerCase n = JS.toLowerCase m →
  getFileLanguage n = getFileLanguage m
  ∧ getInitialContent n = getInitialContent m.
Proof.
  intros H. unfold getFileLanguage, getInitialContent.
  by rewrite <- (extension_toLowerCase n), <- (extension_toLowerCase m), H.
Qed.

Lemma language_ignores_case_witness :
  getFileLanguage "Main.JAVA" = getFileLanguage "main.java"
  ∧ getInitialContent "Main.JAVA" = getInitialContent "main.java".
Proof. apply (language_ignores_case "Main.JAVA" "main.java"). reflexivity. Defined.

Lemma lookupOr_cases tbl ext fallback :
  JS.truthy fallback = true →
  JS.truthy (lookupOr tbl ext fallback) = true
  ∧ (lookupOr tbl ext fallback = fallback
     ∨ ∃ k, (k, lookupOr tbl ext fallback) ∈ tbl).
Proof.
  intros Hf. unfold lookupOr.
  destruct (JS.lookupLit _ tbl) as [v|] eqn:Hv; simpl; [|by auto].
  unfold JS.orElse. destruct (JS.truthy v) eqn:Ht; [|by auto].
  split; [done|]. right. eexists. by apply lookupLit_elem.
Qed.

(** For every name whose table key is not an inherited member, the language
    is a value of the language table, and the starter content is a non-empty
    value of the content table: the empty entry of [txt] is never
    returned. *)
Theorem helpers_range (n : string) :
  inheritedKey n = false →
  getFileLanguage n ∈ languageMap.*2
  ∧ getInitialContent n ∈ contentMap.*2
  ∧ JS.truthy (getFileLanguage n) = true
  ∧ JS.truthy (getInitialContent n) = true.
Proof.
  intros _. unfold getFileLanguage, getInitialContent.
  destruct (lookupOr_cases languageMap (extension n) "plaintext" eq_refl)
    as [Hl1 Hl2].
  destruct (lookupOr_cases contentMap (extension n) startCoding eq_refl)
    as [Hc1 Hc2].
  split; [|split; [|done]].
  - destruct Hl2 as [-> | [k Hk]].
    + apply list_elem_of_fmap. exists ("txt", "plaintext").
      split; [done|]. unfold languageMap.
      repeat first [apply list_elem_of_here | apply list_elem_of_further].
    + apply list_elem_of_fmap. by exists (k, lookupOr languageMap (extension n) "plaintext").
  - destruct Hc2 as [-> | [k Hk]].
    + apply list_elem_of_fmap. exists ("js", startCoding).
      split; [done|]. unfold contentMap.
      repeat first [apply list_elem_of_here | apply list_elem_of_further].
    + apply list_elem_of_fmap. by exists (k, lookupOr contentMap (extension n) startCoding).
Qed.

Lemma helpers_range_witness :
  getFileLanguage "notes.txt" ∈ languageMap.*2
  ∧ JS.truthy (getInitialContent "notes.txt") = true.
Proof.
  destruct (helpers_range "notes.txt" eq_refl) as (H1 & _ & _ & H4).
  exact (conj H1 H4).
Defined.

(** The extension is what follows the last dot, and a name without a dot is
    its own extension: [py] and [lib.v2.py] are both Python files. *)
Theorem extension_is_last_segment (stem ext : string) :
  JS.split "." ext = [ext] →
  extension (stem ++ "." ++ ext) = Some (JS.toLowerCase ext)
  ∧ extension ext = Some (JS.toLowerCase ext)
  ∧ getFileLanguage (stem ++ "." ++ ext) = getFileLanguage ext
  ∧ getInitialContent (stem ++ "." ++ ext) = getInitialContent ext.
Proof.
  intros H.
  assert (H1 := extension_dotted stem ext H).
  assert (H2 : extension ext = Some (JS.toLowerCase ext))
    by (unfold extension, JS.pop; by rewrite H).
  unfold getFileLanguage, getInitialContent. by rewrite H1, H2.
Qed.

Lemma extension_is_last_segment_witness :
  extension "lib.v2.PY" = Some "py"
  ∧ getFileLanguage "lib.v2.PY" = getFileLanguage "PY".
Proof.
  destruct (extension_is_last_segment "lib.v2" "PY" eq_refl) as (H1 & _ & H3 & _).
  exact (conj H1 H3).
Defined.

Lemma shared_create_known_extension_witness :
  getFileLanguage ("src/index" ++ "." ++ "ts") = "typescript"
  ∧ JS.lookupLit "ts" contentMap
    = Some (getInitialContent ("src/index" ++ "." ++ "ts")).
Proof.
  assert (H : ("ts", "typescript") ∈ languageMap)
    by (unfold languageMap; set_solver).
  destruct (shared_create_known_extension "src/index" "ts" "typescript" H)
    as [H1 H2].
  split; [exact H1|]. apply H2. discriminate.
Defined.

End Extensions.

(** ** More on the editor page *)

Section EditorPage.

Import Firestore Editor.

Lemma blank_false_truthy (s : string) : JS.blank s = false → JS.truthy s = true.
Proof. by destruct s. Qed.

(** A committed save changes the content and the modification time of the
    open document and nothing else: not its owner, its grants, its flags,
    no other document, no user, no notification; the session itself is left
    as it was, so its read-only flag is not re-evaluated. *)
Theorem save_changes_content_only cu c now s db s' db' f :
  file s = Some f →
  handleSave cu (Some c) now s db = (SaveWritten, s', db') →
  s' = s
  ∧ users db' = users db
  ∧ notifications db' = notifications db
  ∧ (∀ fid, fid ≠ id f → files db' !! fid = files db !! fid)
  ∧ ∃ d d', files db !! id f = Some d
            ∧ files db' !! id f = Some d'
            ∧ content d' = Some c ∧ lastModified d' = now
            ∧ name d' = name d ∧ type d' = type d ∧ language d' = language d
            ∧ parentId d' = parentId d ∧ ownerId d' = ownerId d
            ∧ starred d' = starred d ∧ sharedWith d' = sharedWith d
            ∧ deleted d' = deleted d.
Proof.
  intros Hf (f' & c' & Hf' & _ & [= <-] & _ & Hs & Hu & ->)%handleSave_written.
  rewrite Hf in Hf'. injection Hf' as <-.
  assert (Hu' := Hu). apply updateDoc_Some in Hu' as (d & Hd & ->).
  split; [destruct s; simpl in *; by subst|].
  split; [done|]. split; [done|].
  split; [intros fid Hne; simpl; by rewrite lookup_insert_ne|].
  exists d, (patchContent c now d). simpl. rewrite lookup_insert_eq.
  repeat split; done.
Qed.

Lemma save_changes_content_only_witness :
  ∃ d', files (handleSave (Some Scenario.alice) (Some "x = 1") 9
                 Scenario.aliceSession Scenario.dbTwo).2 !! "f1" = Some d'
        ∧ content d' = Some "x = 1" ∧ lastModified d' = 9
        ∧ ownerId d' = "uA".
Proof.
  destruct (save_changes_content_only (Some Scenario.alice) "x = 1" 9
              Scenario.aliceSession Scenario.dbTwo Scenario.aliceSession
              (handleSave (Some Scenario.alice) (Some "x = 1") 9
                 Scenario.aliceSession Scenario.dbTwo).2
              (mkFile "f1" Scenario.appPy) eq_refl)
    as (_ & _ & _ & _ & d & d' & Hd & Hd' & Hc & Ht & _ & _ & _ & _ & Ho & _);
    [vm_compute; reflexivity|].
  exists d'. split; [exact Hd'|]. split; [exact Hc|]. split; [exact Ht|].
  rewrite Ho.
  assert (Hd0 : files Scenario.dbTwo !! "f1" = Some Scenario.appPy)
    by (vm_compute; reflexivity).
  change (files Scenario.dbTwo !! "f1" = Some d) in Hd.
  rewrite Hd0 in Hd. by injection Hd as <-.
Defined.

Lemma handleSave_missing (u : User) c now s f db :
  file s = Some f → JS.truthy c = true → isSaving s = false →
  files db !! id f = None →
  handleSave (Some u) (Some c) now s db
  = (SaveFailed, setIsSaving false (setError "Failed to save file" s), db).
Proof.
  intros Hf Hc Hs Hd. unfold handleSave, updateDoc.
  by rewrite Hf, Hc, Hs, Hd.
Qed.

(** A save never brings a document back: once the file has been removed
    from the store (the hard delete of the My-files page), a save from a
    session that still has it open is rejected, reports 'Failed to save
    file' and leaves the store without the document. *)
Theorem save_after_hard_delete (u o : User) c now s f db :
  file s = Some f → JS.truthy c = true → isSaving s = false →
  files (FileSystem.handleDeleteFile (Some o) f db) !! id f = None
  ∧ handleSave (Some u) (Some c) now s (FileSystem.handleDeleteFile (Some o) f db)
    = (SaveFailed, setIsSaving false (setError "Failed to save file" s),
       FileSystem.handleDeleteFile (Some o) f db).
Proof.
  intros Hf Hc Hs.
  assert (Hd : files (FileSystem.handleDeleteFile (Some o) f db) !! id f = None)
    by (simpl; apply lookup_delete_eq).
  split; [done|]. by apply (handleSave_missing u c now s f).
Qed.

Lemma save_after_hard_delete_witness :
  (handleSave (Some Scenario.bob) (Some "x = 1") 9 (Scenario.bobSession editor)
     (FileSystem.handleDeleteFile (Some Scenario.alice)
        (mkFile "f1" (Scenario.sharedAppPy editor)) Scenario.dbBobEditor)).1.1
  = SaveFailed.
Proof.
  destruct (save_after_hard_delete Scenario.bob Scenario.alice "x = 1" 9
              (Scenario.bobSession editor)
              (mkFile "f1" (Scenario.sharedAppPy editor)) Scenario.dbBobEditor
              eq_refl eq_refl eq_refl) as [_ H].
  by rewrite H.
Defined.

(** No handler of the editor page resets the error message: once it is set
    (the page then renders the error screen instead of the editor), every
    snapshot, save, change and delete leaves it set. *)
Theorem editor_error_is_sticky U cu fid doc v now s db :
  JS.truthy (error s) = true →
  JS.truthy (error (onSnapshot U fid doc s)) = true
  ∧ JS.truthy (error (handleSave cu v now s db).1.2) = true
  ∧ JS.truthy (error (onSaveClick cu now s db).1.2) = true
  ∧ JS.truthy (error (onChange cu v now s db).1.2) = true
  ∧ JS.truthy (error (handleDelete cu s db).1) = true.
Proof.
  intros He.
  assert (Hsave : ∀ w, JS.truthy (error (handleSave cu w now s db).1.2) = true).
  { intros w. unfold handleSave.
    destruct (file s), cu, w as [c|]; try done.
    destruct (negb (JS.truthy c) || isSaving s); [done|].
    by destruct (updateDoc _ _ _). }
  split.
  { unfold onSnapshot. destruct doc as [d|]; [|done]. by destruct (type d). }
  split; [apply Hsave|].
  split.
  { unfold onSaveClick. destruct (file s) as [f|]; [|done].
    destruct (isSaving s); [done|]. apply Hsave. }
  split.
  { unfold onChange. destruct (file s) as [f|]; [|done].
    specialize (Hsave v).
    by destruct (handleSave cu v now s db) as [[o s1] db1]. }
  unfold handleDelete. destruct (file s), cu; try done.
  by destruct (updateDoc _ _ _).
Qed.

Lemma editor_error_is_sticky_witness :
  JS.truthy
    (error (onSnapshot Scenario.alice "f1" (Some Scenario.appPy)
              (setError "Failed to save file" Scenario.aliceSession))) = true.
Proof.
  apply (editor_error_is_sticky Scenario.alice (Some Scenario.alice) "f1"
           (Some Scenario.appPy) None 0
           (setError "Failed to save file" Scenario.aliceSession)
           Scenario.db0 eq_refl).
Defined.

Import ShareDialog.

(** A grant made before the invitee has an account is filed under the
    email and is honoured by the editor page for the user who signs in with
    that email: an editor grant opens the session for editing, a viewer
    grant opens it read-only. *)
Theorem grant_by_email_is_honoured (cu U : User) f now s db d s' db' :
  files db !! id f = Some d →
  usersByEmail (d_email s) db = [] →
  handleShare (Some cu) f now s db = (ShareDone, s', db') →
  email U = Some (d_email s) →
  ∃ d', files db' !! id f = Some d'
        ∧ ownerId d' = ownerId d
        ∧ isEditor d' U = bool_decide (d_permission s = editor)
        ∧ (ownerId d ≠ uid U →
           readOnlyFor d' U = negb (bool_decide (d_permission s = editor))).
Proof.
  intros Hd Hnone Hs HU. unfold handleShare in Hs.
  destruct (JS.blank (d_email s)) eqn:Hb; [discriminate|].
  destruct (bool_decide _); [discriminate|].
  destruct (alreadyShared _ _); [discriminate|].
  destruct (updateDoc _ _ _) as [db1|] eqn:Hu; [|discriminate].
  injection Hs as <- <-.
  unfold resolveKey in Hu. rewrite Hnone in Hu.
  eexists. split; [simpl; by apply (updateDoc_lookup _ _ _ _ _ Hd Hu)|].
  split; [done|].
  assert (He : isEditor
                 (patchSharedWith
                    (<[d_email s := mkShareData (d_email s) (d_permission s)
                                      (Some (d_email s))]>
                       (sharedWithOrEmpty (data f))) now d) U
               = bool_decide (d_permission s = editor)).
  { unfold isEditor. simpl. rewrite HU. simpl. unfold JS.orElse.
    rewrite (blank_false_truthy _ Hb). by rewrite lookup_insert_eq. }
  split; [done|].
  intros Hne. unfold readOnlyFor. rewrite He. unfold isOwner. simpl.
  by rewrite bool_decide_eq_false_2.
Qed.

Lemma grant_by_email_is_honoured_witness :
  ∃ d', files Cases.inviteCarol.2 !! "f1" = Some d'
        ∧ readOnlyFor d' Cases.carol = false.
Proof.
  destruct (grant_by_email_is_honoured Scenario.alice Cases.carol
              (mkFile "f1" Scenario.appPy) 2
              (Scenario.formFor "carol@x.com" editor) Cases.dbNoAccounts
              Scenario.appPy ShareDialog.closed Cases.inviteCarol.2)
    as (d' & Hd' & _ & _ & Hro);
    [vm_compute; reflexivity | reflexivity | vm_compute; reflexivity
    | reflexivity |].
  exists d'. split; [exact Hd'|]. apply Hro. discriminate.
Defined.

End EditorPage.

(** ** More on the share dialog *)

Section ShareDialogMore.

Import Firestore ShareDialog.

Lemma usersByEmail_head (l : list (string * string)) (mail : string) :
  match (filter (λ u, u.2 = mail) l).*1 with
  | [] => ∀ docId, (docId, mail) ∉ l
  | k :: _ => ∃ pre post, l = (pre ++ (k, mail) :: post)%list
                          ∧ ∀ x, x ∈ pre → x.2 ≠ mail
  end.
Proof.
  induction l as [|[k m] l IH]; simpl.
  - intros docId H. by apply elem_of_nil in H.
  - rewrite filter_cons. simpl. case_decide as Hm; simpl.
    + subst m. exists [], l. split; [done|].
      intros x H. by apply elem_of_nil in H.
    + destruct ((filter (λ u, u.2 = mail) l).*1) as [|k' rest].
      * intros docId [[= _ ->]|H]%elem_of_cons; [done | by apply (IH docId)].
      * destruct IH as (pre & post & -> & Hpre).
        exists ((k, m) :: pre), post. split; [done|].
        intros x [->|H]%elem_of_cons; [done | by apply Hpre].
Qed.

(** The share key is the email exactly when no user document carries that
    email; otherwise it is the id of the first user document that does. *)
Theorem resolveKey_spec (mail : string) (db : Db) :
  ((∀ docId, (docId, mail) ∉ users db) → resolveKey mail db = mail)
  ∧ ((∃ docId, (docId, mail) ∈ users db) →
     ∃ pre post, users db = (pre ++ (resolveKey mail db, mail) :: post)%list
                 ∧ ∀ x, x ∈ pre → x.2 ≠ mail).
Proof.
  unfold resolveKey, usersByEmail.
  pose proof (usersByEmail_head (users db) mail) as H.
  destruct ((filter (λ u, u.2 = mail) (users db)).*1) as [|k rest].
  - split; [done|]. intros [docId Hin]. by destruct (H docId).
  - split; [|done]. intros Hno.
    destruct H as (pre & post & Heq & _). destruct (Hno k).
    rewrite Heq. apply elem_of_app. right. apply list_elem_of_here.
Qed.

Lemma resolveKey_spec_witness :
  resolveKey "carol@x.com" Scenario.db0 = "carol@x.com"
  ∧ ∃ pre post, users Scenario.db0
                = (pre ++ (resolveKey "bob@x.com" Scenario.db0, "bob@x.com") :: post)%list
                ∧ ∀ x, x ∈ pre → x.2 ≠ "bob@x.com".
Proof.
  split.
  - apply (proj1 (resolveKey_spec "carol@x.com" Scenario.db0)).
    intros docId H. vm_compute in H.
    repeat (apply elem_of_cons in H as [[=]|H]). by apply elem_of_nil in H.
  - apply (proj2 (resolveKey_spec "bob@x.com" Scenario.db0)).
    exists "uB". vm_compute. apply list_elem_of_further, list_elem_of_here.
Defined.

(** A share adds one notification when it goes through and none otherwise;
    the notification is addressed to the share key, is unread and records
    the file, the granter's email and the permission.  The share touches
    no other document and never the [users] collection. *)
Theorem share_notifies_once (cu : User) f now s db o s' db' :
  handleShare (Some cu) f now s db = (o, s', db') →
  users db' = users db
  ∧ (o ≠ ShareDone → notifications db' = notifications db)
  ∧ (o = ShareDone →
     notifications db'
     = (notifications db
        ++ [mkNotification (resolveKey (d_email s) db) (id f) (name (data f))
              (email cu) (d_permission s) now false])%list
     ∧ s' = closed
     ∧ (∀ fid, fid ≠ id f → files db' !! fid = files db !! fid)
     ∧ lastModified <$> files db' !! id f = Some now).
Proof.
  intros Hs. unfold handleShare in Hs.
  destruct (JS.blank _); [by injection Hs as <- <- <-|].
  destruct (bool_decide _); [by injection Hs as <- <- <-|].
  destruct (alreadyShared _ _); [by injection Hs as <- <- <-|].
  destruct (updateDoc _ _ _) as [db1|] eqn:Hu; [|by injection Hs as <- <- <-].
  injection Hs as <- <- <-.
  assert (Hu' := Hu). apply updateDoc_Some in Hu' as (d & Hd & ->).
  split; [done|]. split; [done|]. intros _.
  split; [done|]. split; [done|].
  split; [intros fid Hne; simpl; by rewrite lookup_insert_ne|].
  simpl. by rewrite lookup_insert_eq.
Qed.

Lemma share_notifies_once_witness :
  notifications Cases.inviteCarol.2
  = [mkNotification "carol@x.com" "f1" "app.py" (Some "alice@x.com") editor 2 false].
Proof.
  destruct (share_notifies_once Scenario.alice (mkFile "f1" Scenario.appPy) 2
              (Scenario.formFor "carol@x.com" editor) Cases.dbNoAccounts
              ShareDone closed Cases.inviteCarol.2)
    as (_ & _ & H); [vm_compute; reflexivity|].
  destruct (H eq_refl) as [Hn _]. exact Hn.
Defined.

(** Revoking a key writes the [sharedWith] map of the dialog's file without
    that key: the grant is gone, every other grant of that map is kept,
    [lastModified] moves, and no notification is added or removed.  Revoking
    a key that has no grant still writes. *)
Theorem revoke_removes_key (cu : User) f userId now s db d :
  files db !! id f = Some d →
  ∃ d', files (handleRemoveShare (Some cu) f userId now s db).2 !! id f = Some d'
        ∧ default ∅ (sharedWith d') !! userId = None
        ∧ (∀ k, k ≠ userId →
             default ∅ (sharedWith d') !! k = sharedWithOrEmpty (data f) !! k)
        ∧ lastModified d' = now
        ∧ ownerId d' = ownerId d ∧ content d' = content d
        ∧ notifications (handleRemoveShare (Some cu) f userId now s db).2
          = notifications db.
Proof.
  intros Hd. unfold handleRemoveShare, updateDoc. rewrite Hd. simpl.
  eexists. split; [by rewrite lookup_insert_eq|]. simpl.
  split; [apply lookup_delete_eq|].
  split; [intros k Hne; by apply lookup_delete_ne|]. done.
Qed.

Lemma revoke_removes_key_witness :
  ∃ d', files (handleRemoveShare (Some Scenario.alice)
                 (mkFile "f1" (Scenario.sharedAppPy viewer)) "uB" 7
                 closed Scenario.dbBobViewer).2 !! "f1" = Some d'
        ∧ default ∅ (sharedWith d') !! "uB" = None.
Proof.
  destruct (revoke_removes_key Scenario.alice
              (mkFile "f1" (Scenario.sharedAppPy viewer)) "uB" 7 closed
              Scenario.dbBobViewer (Scenario.sharedAppPy viewer))
    as (d' & Hd' & Hk & _); [vm_compute; reflexivity|].
  exists d'. exact (conj Hd' Hk).
Defined.

(** Sharing and then revoking the same key, the dialog having received the
    document in between, gives back the grants the dialog started from; the
    notification of the share stays. *)
Theorem revoke_undoes_share (cu : User) f now now' s s2 db d s1 db1 :
  files db !! id f = Some d →
  handleShare (Some cu) f now s db = (ShareDone, s1, db1) →
  ∃ d1 d2,
    files db1 !! id f = Some d1
    ∧ files (handleRemoveShare (Some cu) (mkFile (id f) d1)
               (resolveKey (d_email s) db) now' s2 db1).2 !! id f = Some d2
    ∧ sharedWith d2 = Some (sharedWithOrEmpty (data f))
    ∧ notifications (handleRemoveShare (Some cu) (mkFile (id f) d1)
                       (resolveKey (d_email s) db) now' s2 db1).2
      = (notifications db
         ++ [notificationFor cu f (resolveKey (d_email s) db) (d_permission s) now])%list.
Proof.
  intros Hd Hs. unfold handleShare in Hs.
  destruct (JS.blank _); [discriminate|].
  destruct (bool_decide _); [discriminate|].
  destruct (alreadyShared _ _) eqn:Hk; [discriminate|].
  apply alreadyShared_false in Hk.
  unfold updateDoc in Hs. rewrite Hd in Hs. injection Hs as <- <-.
  eexists _, _. split; [simpl; by rewrite lookup_insert_eq|].
  unfold handleRemoveShare, updateDoc. simpl. rewrite lookup_insert_eq. simpl.
  split; [by rewrite lookup_insert_eq|]. simpl.
  split; [|done]. unfold sharedWithOrEmpty at 1. simpl.
  by rewrite delete_insert_id.
Qed.

Lemma revoke_undoes_share_witness :
  ∃ d1 d2,
    files Scenario.dbBobViewer !! "f1" = Some d1
    ∧ files (handleRemoveShare (Some Scenario.alice) (mkFile "f1" d1)
               (resolveKey "bob@x.com" Scenario.db0) 7 closed
               Scenario.dbBobViewer).2 !! "f1" = Some d2
    ∧ sharedWith d2 = Some ∅.
Proof.
  destruct (revoke_undoes_share Scenario.alice (mkFile "f1" Scenario.appPy)
              2 7 (Scenario.formFor "bob@x.com" viewer) closed Scenario.db0
              Scenario.appPy closed Scenario.dbBobViewer)
    as (d1 & d2 & H1 & H2 & H3 & _);
    [vm_compute; reflexivity | vm_compute; reflexivity |].
  exists d1, d2. split; [exact H1|]. split; [exact H2|]. exact H3.
Defined.



End ShareDialogMore.

(** ** More on the listings *)

Section ListingsMore.

Import Firestore Listing.

Lemma isShared_spec (U : User) (d : FileData) :
  SharedFiles.isShared U d = true ↔
  ∃ k e, default ∅ (sharedWith d) !! k = Some e
         ∧ SharedFiles.matches U (k, e) = true.
Proof.
  unfold SharedFiles.isShared. rewrite existsb_exists. split.
  - intros ([k e] & Hin & Hm). exists k, e. split; [|done].
    by apply elem_of_map_to_list, list_elem_of_In.
  - intros (k & e & Hin & Hm). exists (k, e). split; [|done].
    by apply list_elem_of_In, elem_of_map_to_list.
Qed.

Lemma addFile_lookup newId d db : files (addFile newId d db) !! newId = Some d.
Proof. unfold addFile, withFiles. cbn [files]. apply lookup_insert_eq. Qed.

Lemma addFile_lookup_ne newId fid d db :
  fid ≠ newId → files (addFile newId d db) !! fid = files db !! fid.
Proof.
  intros Hne. unfold addFile, withFiles. cbn [files]. by apply lookup_insert_ne.
Qed.

(** Which ids each listing shows. *)
Lemma id_in_FileSystem_view U path db fid :
  fid ∈ id <$> FileSystem.view U path db ↔
  ∃ d, files db !! fid = Some d ∧ ownerId d = uid U
       ∧ FileSystem.atPath path (mkFile fid d) = true.
Proof.
  rewrite list_elem_of_fmap. split.
  - intros (f & -> & [Hp (g & -> & Hg%elem_of_allFiles & Ho)]%elem_of_FileSystem_view).
    exists (data g). split; [done|]. split; [done|]. by destruct path.
  - intros (d & Hd & Ho & Hp). exists (FileSystem.listed (mkFile fid d)).
    split; [done|]. apply elem_of_FileSystem_view. split; [by destruct path|].
    exists (mkFile fid d). split; [done|]. split; [|done].
    by apply elem_of_allFiles.
Qed.

Lemma id_in_StarredFiles_view U db fid :
  fid ∈ id <$> StarredFiles.view U db ↔
  ∃ d, files db !! fid = Some d ∧ ownerId d = uid U ∧ starred d = true.
Proof.
  rewrite list_elem_of_fmap. split.
  - intros (f & -> & (g & -> & Hg%elem_of_allFiles & Ho & Hs)%elem_of_StarredFiles_view).
    by exists (data g).
  - intros (d & Hd & Ho & Hs). exists (StarredFiles.listed (mkFile fid d)).
    split; [done|]. apply elem_of_StarredFiles_view.
    exists (mkFile fid d). split; [done|]. split; [|done].
    by apply elem_of_allFiles.
Qed.

Lemma id_in_SharedFiles_view U db fid :
  fid ∈ id <$> SharedFiles.view U db ↔
  ∃ d, files db !! fid = Some d ∧ SharedFiles.isShared U d = true.
Proof.
  rewrite list_elem_of_fmap. split.
  - intros (f & -> & (g & -> & Hg%elem_of_allFiles & Hs)%elem_of_SharedFiles_view).
    by exists (data g).
  - intros (d & Hd & Hs). exists (SharedFiles.listed (mkFile fid d)).
    split; [done|]. apply elem_of_SharedFiles_view.
    exists (mkFile fid d). split; [done|]. split; [|done].
    by apply elem_of_allFiles.
Qed.








(** A document created from the My-files page shows up in the creator's
    listing of the folder it was created in, and in nobody's shared-with-me
    listing; a blank name creates nothing. *)
Theorem my_files_create_is_listed (cu : User) newId now s db :
  (JS.blank (FileSystem.newFileName s) = true →
   FileSystem.handleCreateFile (Some cu) newId now s db = (s, db))
  ∧ (JS.blank (FileSystem.newFileName s) = false →
     newId ∈ id <$> FileSystem.view cu (FileSystem.currentPath s)
                      (FileSystem.handleCreateFile (Some cu) newId now s db).2
     ∧ (∀ U, newId ∉ id <$> SharedFiles.view U
                           (FileSystem.handleCreateFile (Some cu) newId now s db).2)
     ∧ (∀ fid, fid ≠ newId →
          files (FileSystem.handleCreateFile (Some cu) newId now s db).2 !! fid
          = files db !! fid)).
Proof.
  unfold FileSystem.handleCreateFile. split; intros Hb; rewrite Hb; [done|].
  cbn [snd]. split; [|split].
  - apply id_in_FileSystem_view. eexists. split; [apply addFile_lookup|].
    split; [done|]. unfold FileSystem.atPath. cbn [data].
    destruct (FileSystem.currentPath s) as [|x p] eqn:Hp.
    + unfold FileSystem.newDocument, noParent. cbn [parentId]. by rewrite Hp.
    + apply bool_decide_eq_true. unfold FileSystem.newDocument. cbn [parentId].
      by rewrite Hp.
  - intros U (d & Hd & Hs)%id_in_SharedFiles_view.
    rewrite addFile_lookup in Hd. injection Hd as <-.
    apply isShared_spec in Hs as (k & e & Hk & _). simpl in Hk.
    by rewrite lookup_empty in Hk.
  - intros fid Hne. by apply addFile_lookup_ne.
Qed.

Lemma my_files_create_is_listed_witness :
  "f1" ∈ id <$> FileSystem.view Scenario.alice [] Scenario.created.
Proof.
  apply (proj2 (my_files_create_is_listed Scenario.alice "f1" 1
                  Scenario.createForm System.initial) eq_refl).
Defined.

(** The hard delete of the My-files page removes that one document: it
    disappears from every listing and an editor session on it gets 'File
    not found'; every other document, the children of a deleted folder
    included, stays stored as it was, and so do the notifications that
    point to the deleted file. *)
Theorem hard_delete_removes_one_document (cu U : User) (f : File) (db : Db) :
  files (FileSystem.handleDeleteFile (Some cu) f db) !! id f = None
  ∧ (∀ fid, fid ≠ id f →
       files (FileSystem.handleDeleteFile (Some cu) f db) !! fid = files db !! fid)
  ∧ notifications (FileSystem.handleDeleteFile (Some cu) f db) = notifications db
  ∧ (∀ path, id f ∉ id <$> FileSystem.view U path
                            (FileSystem.handleDeleteFile (Some cu) f db))
  ∧ (id f ∉ id <$> StarredFiles.view U (FileSystem.handleDeleteFile (Some cu) f db))
  ∧ (id f ∉ id <$> SharedFiles.view U (FileSystem.handleDeleteFile (Some cu) f db))
  ∧ ∀ s, Editor.onSnapshot U (id f)
           (files (FileSystem.handleDeleteFile (Some cu) f db) !! id f) s
         = Editor.setError "File not found" s.
Proof.
  assert (Hgone : files (FileSystem.handleDeleteFile (Some cu) f db) !! id f = None)
    by (simpl; apply lookup_delete_eq).
  split; [done|].
  split; [intros fid Hne; simpl; by apply lookup_delete_ne|].
  split; [done|].
  split; [intros path (d & Hd & _)%id_in_FileSystem_view; congruence|].
  split; [intros (d & Hd & _)%id_in_StarredFiles_view; congruence|].
  split; [intros (d & Hd & _)%id_in_SharedFiles_view; congruence|].
  intros s. by rewrite Hgone.
Qed.

Lemma hard_delete_removes_one_document_witness :
  files (FileSystem.handleDeleteFile (Some Scenario.alice)
           (mkFile "f3" Cases.middle) Cases.dbThree) !! "f3" = None
  ∧ files (FileSystem.handleDeleteFile (Some Scenario.alice)
             (mkFile "f3" Cases.middle) Cases.dbThree) !! "f1"
    = files Cases.dbThree !! "f1".
Proof.
  destruct (hard_delete_removes_one_document Scenario.alice Scenario.alice
              (mkFile "f3" Cases.middle) Cases.dbThree) as (H1 & H2 & _).
  split; [exact H1|]. apply H2. discriminate.
Defined.

(** The star button toggles the flag of the listed file: with the listing
    up to date, the owner's Starred view gains the file when it was not
    starred and loses it when it was; other files are unaffected. *)
Theorem star_toggles_starred_view (cu U : User) (f : File) (now : nat) (db : Db) d :
  files db !! id f = Some d →
  starred (data f) = starred d →
  files (FileSystem.handleStar (Some cu) f now db) !! id f
    = Some (patchStarred (negb (starred d)) now d)
  ∧ (id f ∈ id <$> StarredFiles.view U (FileSystem.handleStar (Some cu) f now db)
     ↔ ownerId d = uid U ∧ starred d = false)
  ∧ (∀ fid, fid ≠ id f →
       (fid ∈ id <$> StarredFiles.view U (FileSystem.handleStar (Some cu) f now db)
        ↔ fid ∈ id <$> StarredFiles.view U db)).
Proof.
  intros Hd Hst. unfold FileSystem.handleStar, updateDoc. rewrite Hd, Hst. simpl.
  split; [by rewrite lookup_insert_eq|]. split.
  - rewrite id_in_StarredFiles_view. simpl. rewrite lookup_insert_eq. split.
    + intros (d' & [= <-] & Ho & Hs). simpl in *. split; [done|].
      by destruct (starred d).
    + intros [Ho Hs]. eexists. split; [done|]. simpl. by rewrite Hs.
  - intros fid Hne. rewrite !id_in_StarredFiles_view. simpl.
    by rewrite lookup_insert_ne.
Qed.

Lemma star_toggles_starred_view_witness :
  "f1" ∈ id <$> StarredFiles.view Scenario.alice
                  (FileSystem.handleStar (Some Scenario.alice)
                     (mkFile "f1" Cases.older) 9 Cases.dbThree)
  ∧ ¬ "f3" ∈ id <$> StarredFiles.view Scenario.alice
                      (FileSystem.handleStar (Some Scenario.alice)
                         (mkFile "f3" Cases.middle) 9 Cases.dbThree).
Proof.
  destruct (star_toggles_starred_view Scenario.alice Scenario.alice
              (mkFile "f1" Cases.older) 9 Cases.dbThree Cases.older)
    as (_ & H1 & _); [vm_compute; reflexivity | reflexivity |].
  destruct (star_toggles_starred_view Scenario.alice Scenario.alice
              (mkFile "f3" Cases.middle) 9 Cases.dbThree Cases.middle)
    as (_ & H3 & _); [vm_compute; reflexivity | reflexivity |].
  split; [apply H1; by split|].
  intros [_ H]%H3. discriminate.
Defined.

End ListingsMore.

(** ** Sharing and the listings together *)

Section SharingAndListings.

Import Firestore Listing ShareDialog.

(** After a share that went through, the document is in the shared-with-me
    listing of every user whose email is the invited email or whose id is
    the share key. *)
Theorem share_lists_document_for_recipient (cu U : User) f now s db d s' db' :
  files db !! id f = Some d →
  handleShare (Some cu) f now s db = (ShareDone, s', db') →
  email U = Some (d_email s) ∨ uid U = resolveKey (d_email s) db →
  id f ∈ id <$> SharedFiles.view U db'.
Proof.
  intros Hd Hs HU. unfold handleShare in Hs.
  destruct (JS.blank _); [discriminate|].
  destruct (bool_decide _); [discriminate|].
  destruct (alreadyShared _ _); [discriminate|].
  destruct (updateDoc _ _ _) as [db1|] eqn:Hu; [|discriminate].
  injection Hs as <- <-.
  apply id_in_SharedFiles_view. eexists.
  split; [cbn [files addNotification]; by apply (updateDoc_lookup _ _ _ _ _ Hd Hu)|].
  apply isShared_spec. eexists _, _. cbn [patchSharedWith sharedWith default].
  split; [apply lookup_insert_eq|].
  unfold SharedFiles.matches. cbn [fst snd sd_email].
  destruct HU as [HU | HU].
  - by rewrite HU, bool_decide_eq_true_2.
  - rewrite (bool_decide_eq_true_2 (resolveKey (d_email s) db = uid U)) by done.
    apply orb_true_r.
Qed.

Lemma share_lists_document_for_recipient_witness :
  "f1" ∈ id <$> SharedFiles.view Scenario.bob Scenario.dbBobEditor
  ∧ "f1" ∈ id <$> SharedFiles.view Cases.carol Cases.inviteCarol.2.
Proof.
  split.
  - apply (share_lists_document_for_recipient Scenario.alice Scenario.bob
             (mkFile "f1" Scenario.appPy) 2 (Scenario.formFor "bob@x.com" editor)
             Scenario.db0 Scenario.appPy closed Scenario.dbBobEditor);
      [vm_compute; reflexivity | vm_compute; reflexivity | by right].
  - apply (share_lists_document_for_recipient Scenario.alice Cases.carol
             (mkFile "f1" Scenario.appPy) 2 (Scenario.formFor "carol@x.com" editor)
             Cases.dbNoAccounts Scenario.appPy closed Cases.inviteCarol.2);
      [vm_compute; reflexivity | vm_compute; reflexivity | by left].
Defined.

(** A document created at the top level of the shared-with-me page, with
    fields the store accepts, has an empty [sharedWith] and the creator as
    owner: it is in nobody's shared-with-me listing, the page it was created
    on included, and shows up at the root of the creator's My-files
    listing. *)
Theorem shared_top_level_create_is_private
    (cu : User) (newId : string) (now : nat) (s : SharedFiles.State) (db : Db) :
  JS.blank (SharedFiles.newFileName s) = false →
  SharedFiles.nonStringFields s = false →
  SharedFiles.currentPath s = [] →
  (∀ U, newId ∉ id <$> SharedFiles.view U
                        (SharedFiles.handleCreateFile (Some cu) newId now s db).2)
  ∧ newId ∈ id <$> FileSystem.view cu []
                     (SharedFiles.handleCreateFile (Some cu) newId now s db).2.
Proof.
  intros Hb Hns Hp. unfold SharedFiles.handleCreateFile.
  rewrite Hb, (nonStringFields_false s Hns). cbn [snd].
  assert (Hsw : sharedWith (SharedFiles.newDocument cu s now) = Some ∅).
  { unfold SharedFiles.newDocument, SharedFiles.inheritedSharedWith,
      SharedFiles.currentFolder. cbn [sharedWith]. by rewrite Hp. }
  split.
  - intros U (d & Hd & Hs)%id_in_SharedFiles_view.
    rewrite addFile_lookup in Hd. injection Hd as <-.
    apply isShared_spec in Hs as (k & e & Hk & _). rewrite Hsw in Hk.
    simpl in Hk. by rewrite lookup_empty in Hk.
  - apply id_in_FileSystem_view. eexists. split; [apply addFile_lookup|].
    split; [done|]. unfold FileSystem.atPath, noParent, SharedFiles.newDocument.
    cbn [data parentId]. by rewrite Hp.
Qed.

Lemma shared_top_level_create_is_private_witness :
  ¬ "f9" ∈ id <$> SharedFiles.view Scenario.bob
                    (SharedFiles.handleCreateFile (Some Scenario.bob) "f9" 5
                       Scenario.bobAtTop Scenario.dbFolder).2.
Proof.
  apply (proj1 (shared_top_level_create_is_private Scenario.bob "f9" 5
                  Scenario.bobAtTop Scenario.dbFolder eq_refl eq_refl eq_refl)).
Defined.



Import Layout.

Lemma elem_of_insertByTime (x n : Notification) (l : list Notification) :
  x ∈ insertByTime n l ↔ x = n ∨ x ∈ l.
Proof.
  induction l as [|m l IH]; simpl.
  - rewrite list_elem_of_singleton. split; [auto|].
    intros [?|H]; [done | by apply elem_of_nil in H].
  - destruct (_ <=? _)%nat.
    + by rewrite elem_of_cons.
    + rewrite !elem_of_cons, IH. tauto.
Qed.

Lemma insertByTime_sorted n l :
  StronglySorted sentLater l → StronglySorted sentLater (insertByTime n l).
Proof.
  induction 1 as [|m l Hl IH Hm]; simpl.
  - repeat constructor.
  - destruct (_ <=? _)%nat eqn:Hle.
    + apply Nat.leb_le in Hle. constructor; [by constructor|].
      constructor; [done|]. eapply Forall_impl; [exact Hm|].
      intros x Hx. unfold sentLater in *. lia.
    + apply Nat.leb_gt in Hle. constructor; [done|].
      apply Forall_forall. intros x [->|Hx]%elem_of_insertByTime.
      * unfold sentLater. lia.
      * by apply (proj1 (Forall_forall _ _) Hm).
Qed.

Lemma foldr_insertByTime_sorted l :
  StronglySorted sentLater (foldr insertByTime [] l).
Proof.
  induction l as [|m l IH]; simpl; [constructor|].
  by apply insertByTime_sorted.
Qed.

Lemma elem_of_notificationsView (U : User) (db : Db) (n : Notification) :
  n ∈ notificationsView U db ↔ n ∈ notifications db ∧ n_userId n = uid U.
Proof.
  unfold notificationsView.
  assert (H : ∀ l, n ∈ foldr insertByTime [] l ↔ n ∈ l).
  { induction l as [|m l IH]; simpl; [done|].
    by rewrite elem_of_insertByTime, elem_of_cons, IH. }
  rewrite H, list_elem_of_filter. tauto.
Qed.

Lemma handleShare_notifications (cu : User) f now s db s' db' :
  handleShare (Some cu) f now s db = (ShareDone, s', db') →
  notifications db'
  = (notifications db
     ++ [notificationFor cu f (resolveKey (d_email s) db) (d_permission s) now])%list.
Proof.
  intros Hs. unfold handleShare in Hs.
  destruct (JS.blank _); [discriminate|].
  destruct (bool_decide _); [discriminate|].
  destruct (alreadyShared _ _); [discriminate|].
  destruct (updateDoc _ _ _) as [db1|] eqn:Hu; [|discriminate].
  injection Hs as <- <-.
  by apply updateDoc_Some in Hu as (d & Hd & ->).
Qed.

(** The notification menu shows, most recent first, exactly the
    notifications whose [userId] is the signed-in user's id. *)
Theorem notifications_view_exact (U : User) (db : Db) :
  StronglySorted sentLater (notificationsView U db)
  ∧ ∀ n, n ∈ notificationsView U db ↔
         n ∈ notifications db ∧ n_userId n = uid U.
Proof.
  split; [apply foldr_insertByTime_sorted | apply elem_of_notificationsView].
Qed.

(** The notification of a share reaches the notification menu of the user
    whose id is the share key and of nobody else.  A grant filed under a
    raw email, made before the invitee had an account, therefore never shows
    up in the invitee's notifications. *)
Theorem share_notification_delivery (cu U : User) f now s db s' db' :
  handleShare (Some cu) f now s db = (ShareDone, s', db') →
  (∀ n, n ∈ notificationsView U db' ↔
        n ∈ notificationsView U db
        ∨ (n = notificationFor cu f (resolveKey (d_email s) db) (d_permission s) now
           ∧ uid U = resolveKey (d_email s) db))
  ∧ (usersByEmail (d_email s) db = [] → uid U ≠ d_email s →
     ∀ n, n ∈ notificationsView U db' ↔ n ∈ notificationsView U db).
Proof.
  intros Hs.
  pose proof (handleShare_notifications cu f now s db s' db' Hs) as Hn.
  assert (H1 : ∀ n, n ∈ notificationsView U db' ↔
             n ∈ notificationsView U db
             ∨ (n = notificationFor cu f (resolveKey (d_email s) db) (d_permission s) now
                ∧ uid U = resolveKey (d_email s) db)).
  { intros n. rewrite !elem_of_notificationsView, Hn.
    rewrite elem_of_app, list_elem_of_singleton. split.
    - intros [[Hin | ->] Hu]; [left; by split | right; by split].
    - intros [[Hin Hu] | [-> Hu]]; (split; [auto | done]). }
  split; [exact H1|].
  intros Hnone Hne n. rewrite H1. unfold resolveKey. rewrite Hnone.
  split; [intros [H | [_ H]]; [done | by destruct Hne] | auto].
Qed.

Lemma share_notification_delivery_witness :
  ¬ mkNotification "carol@x.com" "f1" "app.py" (Some "alice@x.com") editor 2 false
    ∈ notificationsView Cases.carol Cases.inviteCarol.2.
Proof.
  intros H.
  apply (proj2 (share_notification_delivery Scenario.alice Cases.carol
                  (mkFile "f1" Scenario.appPy) 2
                  (Scenario.formFor "carol@x.com" editor) Cases.dbNoAccounts
                  closed Cases.inviteCarol.2 eq_refl)) in H;
    [|reflexivity|discriminate].
  vm_compute in H. by apply elem_of_nil in H.
Defined.

End SharingAndListings.

(** ** Search *)

Section Search.

Import Firestore Layout.

Lemma prefix_refl (s : string) : String.prefix s s = true.
Proof.
  induction s as [|c s IH]; simpl; [done|].
  by destruct (ascii_dec c c).
Qed.

Lemma includes_refl (s : string) : includes s s = true.
Proof.
  destruct s as [|c s]; [reflexivity|].
  change (includes (String c s) (String c s))
    with (String.prefix (String c s) (String c s) || includes s (String c s)).
  by rewrite prefix_refl.
Qed.

Lemma isSpace_lowerChar (c : ascii) : JS.isSpace (JS.lowerChar c) = JS.isSpace c.
Proof.
  destruct c as [b0 b1 b2 b3 b4 b5 b6 b7].
  destruct b0, b1, b2, b3, b4, b5, b6, b7; reflexivity.
Qed.

Lemma blank_toLowerCase (s : string) : JS.blank (JS.toLowerCase s) = JS.blank s.
Proof.
  induction s as [|c s IH]; simpl; [done|].
  by rewrite isSpace_lowerChar, IH.
Qed.

Lemma id_in_handleSearch (cu : User) q db fid :
  JS.blank q = false →
  fid ∈ id <$> handleSearch (Some cu) q db ↔
  ∃ d, files db !! fid = Some d ∧ ownerId d = uid cu
       ∧ hit q (mkFile fid d) = true.
Proof.
  intros Hb. unfold handleSearch. rewrite Hb, list_elem_of_fmap. split.
  - intros (f & -> & [Hin Hhit]%elem_of_List_filter).
    apply list_elem_of_fmap in Hin as (g & -> & [Ho Hg%elem_of_allFiles]%list_elem_of_filter).
    by exists (data g).
  - intros (d & Hd & Ho & Hhit). exists (listed (mkFile fid d)).
    split; [done|]. apply elem_of_List_filter. split; [|done].
    apply list_elem_of_fmap. exists (mkFile fid d). split; [done|].
    apply list_elem_of_filter. split; [done|]. by apply elem_of_allFiles.
Qed.

(** A blank query gives no results.  Otherwise the results are exactly the
    user's own documents whose name, or whose non-empty content, contains
    the query, letter case aside; in particular every document is found by
    its own name. *)
Theorem search_results_exact (cu : User) (q : string) (db : Db) :
  (JS.blank q = true → handleSearch (Some cu) q db = [])
  ∧ (JS.blank q = false →
     ∀ fid, fid ∈ id <$> handleSearch (Some cu) q db ↔
       ∃ d, files db !! fid = Some d ∧ ownerId d = uid cu
            ∧ (includes (JS.toLowerCase (name d)) (JS.toLowerCase q) = true
               ∨ ∃ c, content d = Some c ∧ c ≠ EmptyString
                      ∧ includes (JS.toLowerCase c) (JS.toLowerCase q) = true))
  ∧ (∀ fid d, files db !! fid = Some d → ownerId d = uid cu →
       JS.blank (name d) = false →
       fid ∈ id <$> handleSearch (Some cu) (name d) db).
Proof.
  split; [intros Hb; unfold handleSearch; by rewrite Hb|]. split.
  - intros Hb fid. rewrite (id_in_handleSearch cu q db fid Hb).
    split; intros (d & Hd & Ho & H); exists d; (split; [done|]); (split; [done|]).
    + unfold hit in H. cbn [data] in H.
      apply orb_true_iff in H as [H|H]; [by left|]. right.
      destruct (content d) as [c|]; [|discriminate].
      apply andb_true_iff in H as [Hc H]. exists c.
      split; [done|]. split; [|done]. by destruct c.
    + unfold hit. cbn [data]. apply orb_true_iff.
      destruct H as [H | (c & Hc & Hne & H)]; [by left|]. right.
      rewrite Hc. apply andb_true_iff. split; [by destruct c | done].
  - intros fid d Hd Ho Hb. apply (id_in_handleSearch cu (name d) db fid Hb).
    exists d. split; [done|]. split; [done|].
    unfold hit. cbn [data]. by rewrite includes_refl.
Qed.

Lemma search_results_exact_witness :
  handleSearch (Some Scenario.alice) "  " Cases.dbThree = []
  ∧ "f2" ∈ id <$> handleSearch (Some Scenario.alice) "WORLD" Cases.dbThree
  ∧ "f3" ∈ id <$> handleSearch (Some Scenario.alice) "notes" Cases.dbThree.
Proof.
  destruct (search_results_exact Scenario.alice "  " Cases.dbThree) as (H1 & _).
  destruct (search_results_exact Scenario.alice "WORLD" Cases.dbThree) as (_ & H2 & _).
  destruct (search_results_exact Scenario.alice "notes" Cases.dbThree) as (_ & _ & H3).
  split; [apply H1; reflexivity|]. split.
  - apply (H2 eq_refl). exists Cases.newest.
    split; [vm_compute; reflexivity|]. split; [reflexivity|]. right.
    exists "hello World". split; [reflexivity|].
    split; [discriminate | vm_compute; reflexivity].
  - apply (H3 "f3" Cases.middle); [vm_compute; reflexivity | reflexivity | reflexivity].
Defined.

(** The search does not depend on the letter case of the query. *)
Theorem search_ignores_case (cu : option User) (q q' : string) (db : Db) :
  JS.toLowerCase q = JS.toLowerCase q' →
  handleSearch cu q db = handleSearch cu q' db.
Proof.
  intros H. unfold handleSearch. destruct cu as [u|]; [|done].
  rewrite <- (blank_toLowerCase q), <- (blank_toLowerCase q'), H.
  destruct (JS.blank _); [done|].
  apply filter_ext. intros f. unfold hit. by rewrite H.
Qed.

Lemma search_ignores_case_witness :
  handleSearch (Some Scenario.alice) "ReadMe" Cases.dbThree
  = handleSearch (Some Scenario.alice) "README" Cases.dbThree.
Proof.
  apply (search_ignores_case (Some Scenario.alice) "ReadMe" "README" Cases.dbThree).
  reflexivity.
Defined.

End Search.

(** ** Presence *)

Section PresenceProps.

Import CodeEditor.

Lemma elem_of_activeUsers (cur : Props) (p : Presence) (e : ActiveUser) :
  e ∈ activeUsers cur p ↔ (∃ k, p !! k = Some e) ∧ au_id e ≠ p_id cur.
Proof.
  unfold activeUsers. rewrite elem_of_List_filter, list_elem_of_fmap.
  rewrite negb_true_iff, bool_decide_eq_false. split.
  - intros [([k e'] & -> & Hin%elem_of_map_to_list) Hne]. split; [|done].
    by exists k.
  - intros [[k Hk] Hne]. split; [|done]. exists (k, e). split; [done|].
    by apply elem_of_map_to_list.
Qed.

(** No operation of the component removes a presence document: mounting,
    moving the cursor and unmounting keep every entry, the unmounting
    user's own included.  A user who opened the file and left is still shown
    to the others. *)
Theorem presence_is_never_removed (u other : Props) (c : Cursor) (t1 t2 : nat)
    (p : Presence) :
  (∀ k, is_Some (p !! k) →
        is_Some (mount u t1 p !! k) ∧ is_Some (cursorMoved u c t1 p !! k)
        ∧ is_Some (unmount u t1 p !! k))
  ∧ (p !! p_id u = None → p_id other ≠ p_id u →
     touch t2 (userData u t1) ∈ activeUsers other (unmount u t2 (mount u t1 p))).
Proof.
  split.
  - intros k Hk. unfold mount, cursorMoved, unmount.
    destruct (p !! p_id u) as [e|]; repeat split; try done;
      (destruct (decide (p_id u = k)) as [->|Hne];
       [rewrite lookup_insert_eq; eauto | by rewrite lookup_insert_ne]).
  - intros Hnone Hne. apply elem_of_activeUsers. split; [|by simpl].
    exists (p_id u). unfold mount, unmount. rewrite Hnone.
    rewrite lookup_insert_eq. by rewrite lookup_insert_eq.
Qed.

Lemma presence_is_never_removed_witness :
  touch 9 (userData Cases.bobProps 3)
  ∈ activeUsers Cases.aliceProps
      (unmount Cases.bobProps 9 (mount Cases.bobProps 3 (mount Cases.aliceProps 1 ∅))).
Proof.
  apply (proj2 (presence_is_never_removed Cases.bobProps Cases.aliceProps
                  (mkCursor 1 1) 3 9 (mount Cases.aliceProps 1 ∅)));
    [vm_compute; reflexivity | discriminate].
Defined.



(** The list of collaborators never contains the current user, and the
    user's own mount does not change it. *)
Theorem own_presence_is_hidden (cur : Props) (now : nat) (p : Presence) :
  (∀ e, e ∈ activeUsers cur p → au_id e ≠ p_id cur)
  ∧ (p !! p_id cur = None →
     ∀ e, e ∈ activeUsers cur (mount cur now p) ↔ e ∈ activeUsers cur p).
Proof.
  split; [by intros e [_ H]%elem_of_activeUsers|].
  intros Hnone e. rewrite !elem_of_activeUsers. unfold mount. rewrite Hnone.
  split; intros [[k Hk] Hne]; (split; [|done]).
  - destruct (decide (p_id cur = k)) as [<-|Hk'].
    + rewrite lookup_insert_eq in Hk. injection Hk as <-. by destruct Hne.
    + rewrite lookup_insert_ne in Hk by done. by exists k.
  - exists k. rewrite lookup_insert_ne; [done|]. congruence.
Qed.

Lemma own_presence_is_hidden_witness :
  userData Cases.aliceProps 1
  ∈ activeUsers Cases.bobProps
      (mount Cases.bobProps 3 (mount Cases.aliceProps 1 ∅)).
Proof.
  apply (proj2 (own_presence_is_hidden Cases.bobProps 3 (mount Cases.aliceProps 1 ∅)));
    [vm_compute; reflexivity|].
  vm_compute. apply list_elem_of_here.
Defined.

(** A cursor move is recorded only once the presence document exists: before
    the mount has written it the update is dropped; after it, the cursor is
    stored and drawn at its position, while a collaborator without a stored
    cursor, or with a zero line or column, is drawn at line 1, column 1. *)
Theorem cursor_needs_presence (u : Props) (c : Cursor) (t1 t2 : nat) (p : Presence) :
  p !! p_id u = None →
  cursorMoved u c t2 p = p
  ∧ cursorMoved u c t2 (mount u t1 p) !! p_id u
    = Some (withCursor c t2 (userData u t1))
  ∧ decorationRange (withCursor c t2 (userData u t1))
    = (orOne (lineNumber c), orOne (column c),
       orOne (lineNumber c), orOne (column c))
  ∧ decorationRange (userData u t1) = (1, 1, 1, 1)
  ∧ (0 < lineNumber c → 0 < column c →
     decorationRange (withCursor c t2 (userData u t1))
     = (lineNumber c, column c, lineNumber c, column c)).
Proof.
  intros Hnone. split; [unfold cursorMoved; by rewrite Hnone|].
  split.
  { unfold cursorMoved, mount. rewrite Hnone, lookup_insert_eq.
    by rewrite lookup_insert_eq. }
  split; [done|]. split; [done|].
  intros Hl Hc. unfold decorationRange, orOne. simpl.
  destruct (lineNumber c), (column c); try lia. done.
Qed.

Lemma cursor_needs_presence_witness :
  cursorMoved Cases.bobProps (mkCursor 4 7) 5 ∅ = ∅
  ∧ decorationRange
      (withCursor (mkCursor 4 7) 5 (userData Cases.bobProps 3)) = (4, 7, 4, 7).
Proof.
  assert (Hnone : (∅ : Presence) !! p_id Cases.bobProps = None)
    by (vm_compute; reflexivity).
  destruct (cursor_needs_presence Cases.bobProps (mkCursor 4 7) 3 5 ∅ Hnone)
    as (H1 & _ & _ & _ & H5).
  split; [exact H1|]. apply H5; simpl; lia.
Defined.

End PresenceProps.

(** ** Theme *)

Section Theme.

Import ThemeContext.

(** The theme survives a reload: the value the effect saves is read back to
    the same mode, two toggles restore the mode, and anything else found in
    storage (nothing, or an unknown word) starts the application in light
    mode. *)
Theorem theme_round_trip (isDarkMode : bool) (stored : option string) :
  initialDark (Some (saved isDarkMode)) = isDarkMode
  ∧ initialDark (Some (saved (toggleTheme (toggleTheme isDarkMode)))) = isDarkMode
  ∧ initialDark (Some (saved (toggleTheme isDarkMode))) = negb isDarkMode
  ∧ (stored ≠ Some "dark" → initialDark stored = false).
Proof.
  repeat split; try by destruct isDarkMode.
  intros H. unfold initialDark. by apply bool_decide_eq_false.
Qed.

Lemma theme_round_trip_witness : initialDark None = false.
Proof.
  apply (proj2 (proj2 (proj2 (theme_round_trip true None)))). discriminate.
Defined.

End Theme.
